(** * kipp: the upload and serving pipeline of [server.go]

    A shallow embedding of [Server.UploadHandler], of the file-system
    function handed to [http.FileServer] by [Server.ServeHTTP], and of
    [detectContentType], with the parts of Go's [io], [time],
    [encoding/base64] and [path/filepath] packages they are built from.

    Streams are modelled as scripts of the results of successive [Read]
    calls, the response as the calls made on the [http.ResponseWriter],
    and the two stores ([database.Database], [filesystem.FileSystem]) as
    interfaces with explicit state passing. *)

From Stdlib Require Import ZArith NArith Lia List Bool Ascii String.
From Stdlib.Strings Require Import Byte.
From Stdlib Require PrimFloat Uint63 FloatOps.
From stdpp Require Import base option list strings gmap pretty.
Import ListNotations.

Local Open Scope string_scope.
Local Open Scope list_scope.

(** ** Errors *)

(** Go error values.  [Wrap] is [fmt.Errorf("<prefix>: %w", err)]. *)
Inductive error : Type :=
| EOF                       (* io.EOF *)
| ErrUnexpectedEOF          (* io.ErrUnexpectedEOF *)
| ErrShortWrite             (* io.ErrShortWrite *)
| ErrInvalidWrite           (* io: "invalid write result" *)
| ErrBodyTooLarge           (* http: "request body too large" *)
| ErrNotExist               (* os.ErrNotExist *)
| ErrNoResults              (* database.ErrNoResults *)
| ErrSeek                   (* errors.New("seeker can't seek") *)
| ErrOther (msg : string)
| Wrap (prefix : string) (e : error).

(** [errors.Is(err, target)] for a sentinel [target]: follow the [%w] chain. *)
Fixpoint errors_Is (err : error) (target : error -> bool) : bool :=
  target err ||
  match err with
  | Wrap _ e => errors_Is e target
  | _ => false
  end.

Definition isNoResults (e : error) : bool :=
  match e with ErrNoResults => true | _ => false end.

Definition isEOF (e : error) : bool :=
  match e with EOF => true | _ => false end.

(** [err.Error()] is only used as the text of an error reply. *)
Fixpoint Error_ (e : error) : string :=
  match e with
  | EOF => "EOF"
  | ErrUnexpectedEOF => "unexpected EOF"
  | ErrShortWrite => "short write"
  | ErrInvalidWrite => "invalid write result"
  | ErrBodyTooLarge => "http: request body too large"
  | ErrNotExist => "file does not exist"
  | ErrNoResults => "no results"
  | ErrSeek => "seeker can't seek"
  | ErrOther msg => msg
  | Wrap p e => p +:+ ": " +:+ Error_ e
  end.

(** ** encoding/base64: [RawURLEncoding.EncodeToString] *)

Module Base64.

Definition encodeURL : string :=
  "ABCDEFGHIJKLMNOPQRSTUVWXYZabcdefghijklmnopqrstuvwxyz0123456789-_".

(** [enc.encode[val>>shift & 0x3F]] *)
Definition digit (val shift : N) : ascii :=
  default "="%char
    (String.get (N.to_nat (N.land (N.shiftr val shift) 63)) encodeURL).

Definition u (b : byte) : N := Byte.to_N b.

(** The encoder consumes three source bytes per four output characters;
    a remainder of one or two bytes yields two or three characters, and
    the raw encoding writes no padding. *)
Fixpoint EncodeToString (src : list byte) : string :=
  match src with
  | [] => ""
  | [b0] =>
      let val := N.shiftl (u b0) 16 in
      String (digit val 18) (String (digit val 12) "")
  | [b0; b1] =>
      let val := N.lor (N.shiftl (u b0) 16) (N.shiftl (u b1) 8) in
      String (digit val 18) (String (digit val 12) (String (digit val 6) ""))
  | b0 :: b1 :: b2 :: rest =>
      let val := N.lor (N.lor (N.shiftl (u b0) 16) (N.shiftl (u b1) 8)) (u b2) in
      String (digit val 18) (String (digit val 12)
        (String (digit val 6) (String (digit val 0) (EncodeToString rest))))
  end.

(** The URL-safe alphabet: letters, digits, [-] and [_]. *)
Definition urlsafe (c : ascii) : bool :=
  let n := N_of_ascii c in
  ((65 <=? n) && (n <=? 90) || (97 <=? n) && (n <=? 122) ||
   (48 <=? n) && (n <=? 57) || (n =? 45) || (n =? 95))%N.

Fixpoint all_urlsafe (s : string) : bool :=
  match s with
  | "" => true
  | String c s' => urlsafe c && all_urlsafe s'
  end.

End Base64.

(** ** path/filepath and strings helpers *)

Definition isPathSeparator (c : ascii) : bool := Ascii.eqb c "/".

(** [filepath.Ext]: scan backwards from the last byte, stop at a path
    separator, return the suffix that starts at the first dot met.
    [rpath] is the path reversed, [acc] the bytes already passed. *)
Fixpoint ext_scan (rpath : list ascii) (acc : string) : string :=
  match rpath with
  | [] => ""
  | c :: r =>
      if isPathSeparator c then ""
      else if Ascii.eqb c "." then String c acc
      else ext_scan r (String c acc)
  end.

Definition Ext (path : string) : string :=
  ext_scan (rev (list_ascii_of_string path)) "".

(** [strings.HasPrefix(s, prefix)] *)
Fixpoint HasPrefix (s prefix : string) {struct prefix} : bool :=
  match prefix with
  | "" => true
  | String a prefix' =>
      match s with
      | "" => false
      | String b s' => Ascii.eqb a b && HasPrefix s' prefix'
      end
  end.

(** [s[n:]] *)
Fixpoint string_drop (n : nat) (s : string) : string :=
  match n, s with
  | O, _ => s
  | S n', String _ s' => string_drop n' s'
  | S _, "" => ""
  end.

(** [strings.Index(s, ".")]: the offset of the first dot, if any. *)
Fixpoint index_dot (s : string) : option nat :=
  match s with
  | "" => None
  | String c s' => if Ascii.eqb c "." then Some O else S <$> index_dot s'
  end.

(** [s[:n]] *)
Fixpoint string_take (n : nat) (s : string) : string :=
  match n, s with
  | S n', String c s' => String c (string_take n' s')
  | _, _ => ""
  end.

(** [path.Split]: everything up to and including the final slash, and the
    rest.  [split_scan] walks the reversed path to that slash. *)
Fixpoint split_scan (rpath : list ascii) (file : string) : string * string :=
  match rpath with
  | [] => ("", file)
  | c :: r =>
      if Ascii.eqb c "/" then (string_of_list_ascii (rev rpath), file)
      else split_scan r (String c file)
  end.

Definition path_Split (p : string) : string * string :=
  split_scan (rev (list_ascii_of_string p)) "".

(** ** io: readers, writers, [ReadFull], [Copy], [MultiWriter] *)

(** A one-pass [io.Reader] (the request body, a multipart part,
    [rand.Reader]) is the script of what its successive [Read] calls
    return: [Data chunk next] is a call that yields [chunk] with a nil
    error, [End_ e] a reader on which every further call yields [(0, e)]
    ([e] is [EOF] at the regular end of the data). *)
Inductive Reader : Type :=
| Data (chunk : list byte) (next : Reader)
| End_ (e : error).

(** All the bytes a reader delivers before it ends. *)
Fixpoint contents (r : Reader) : list byte :=
  match r with
  | Data chunk next => chunk ++ contents next
  | End_ _ => []
  end.


(** [io.Writer]: [Write p] reports the number of bytes taken and an error. *)
Class Writer (W : Type) : Type :=
  Write : list byte -> W -> (Z * option error) * W.

Definition len (p : list byte) : Z := Z.of_nat (length p).

(** [io.ReadFull(r, buf)] with [len(buf) = need]: read until [need] bytes
    have arrived or a call fails.  A chunk larger than the room left in
    the buffer is delivered in part; the rest stays in the reader.  At the
    end [err] is nil when the buffer is full, [ErrUnexpectedEOF] when
    [EOF] arrives after some bytes, and the reader's error otherwise. *)
Fixpoint ReadFull (r : Reader) (need : nat) (got : list byte)
  : (list byte * option error) * Reader :=
  match need with
  | O => ((got, None), r)
  | S _ =>
      match r with
      | End_ e =>
          ((got, Some (if isEOF e && negb (Nat.eqb (length got) 0)
                       then ErrUnexpectedEOF else e)), r)
      | Data chunk next =>
          if Nat.leb (length chunk) need
          then ReadFull next (need - length chunk) (got ++ chunk)
          else ((got ++ take need chunk, None), Data (drop need chunk) next)
      end
  end.

(** [io.Copy(dst, src)] ([copyBuffer]; neither [multipart.Part] nor the
    multi-writer offers the [WriterTo]/[ReaderFrom] short cuts).  Each
    chunk of the script is one [Read] into Copy's buffer, written to [dst]
    at once. *)
Fixpoint copyBuffer {W} `{Writer W} (dst : W) (src : Reader) (written : Z)
  : (Z * option error) * W :=
  match src with
  | End_ er => ((written, if isEOF er then None else Some er), dst)
  | Data buf next =>
      let nr := len buf in
      if (0 <? nr)%Z then
        let '((nw, ew), dst') := Write buf dst in
        let '(nw, ew) :=
          if ((nw <? 0) || (nr <? nw))%Z
          then (0%Z, Some (default ErrInvalidWrite ew))
          else (nw, ew) in
        let written := (written + nw)%Z in
        match ew with
        | Some e => ((written, Some e), dst')
        | None =>
            if negb (nr =? nw)%Z then ((written, Some ErrShortWrite), dst')
            else copyBuffer dst' next written
        end
      else copyBuffer dst next written
  end.

Definition Copy {W} `{Writer W} (dst : W) (src : Reader) : (Z * option error) * W :=
  copyBuffer dst src 0%Z.

(** The writes a copy of [src] makes: the chunks that are not empty. *)
Fixpoint writes (src : Reader) : list (list byte) :=
  match src with
  | Data buf next => if (0 <? len buf)%Z then buf :: writes next else writes next
  | End_ _ => []
  end.

(** The writer after it has taken each of the writes [ps] in full and
    without an error, if it does. *)
Fixpoint takesAll {W} `{Writer W} (ps : list (list byte)) (w : W) : option W :=
  match ps with
  | [] => Some w
  | p :: ps' =>
      let '((n, err), w') := Write p w in
      match err with
      | Some _ => None
      | None => if (n =? len p)%Z then takesAll ps' w' else None
      end
  end.

(** [io.MultiWriter(w, h)]: every write goes to [w] first and then to
    [h]; the first error or short write stops it. *)
Definition multiWrite {W H} `{Writer W} `{Writer H} (p : list byte) (t : W * H)
  : (Z * option error) * (W * H) :=
  let '((n, err), w') := Write p t.1 in
  match err with
  | Some e => ((n, Some e), (w', t.2))
  | None =>
      if negb (n =? len p)%Z then ((n, Some ErrShortWrite), (w', t.2))
      else
        let '((n2, err2), h') := Write p t.2 in
        match err2 with
        | Some e => ((n2, Some e), (w', h'))
        | None =>
            if negb (n2 =? len p)%Z then ((n2, Some ErrShortWrite), (w', h'))
            else ((len p, None), (w', h'))
        end
  end.

#[export] Instance MultiWriter {W H} `{Writer W} `{Writer H} : Writer (W * H) :=
  multiWrite.

(** [http.MaxBytesReader(w, body, n)]: passes at most [n] bytes through;
    a read that would go beyond them delivers what is left of the [n]
    bytes together with the "request body too large" error. *)
Fixpoint limitReader (r : Reader) (n : Z) : Reader :=
  match r with
  | End_ e => End_ e
  | Data chunk next =>
      if (len chunk <=? n)%Z then Data chunk (limitReader next (n - len chunk))
      else Data (take (Z.to_nat n) chunk) (End_ ErrBodyTooLarge)
  end.

Definition MaxBytesReader (r : Reader) (n : Z) : Reader :=
  limitReader r (Z.max 0 n).

(** *** Seekable streams *)

(** Modelled from the spec: [filesystem.Reader], the [io.ReadSeekCloser]
    that opening a blob by its key yields, which is not part of the
    sources at hand.  A blob stream holds the blob's bytes and a read
    position; a [Read] may be short (at most [burst + 1] bytes), reads
    fail from offset [fault] on when one is set, and [Seek] fails on a
    stream that is not [seekable]. *)
Record Blob : Type := mkBlob {
  content : list byte;
  offset : nat;
  burst : nat;
  fault : option nat;
  seekable : bool
}.

(** The number of bytes that can still be read without an error. *)
Definition readable (r : Blob) : nat :=
  match fault r with
  | Some f => Nat.min f (length (content r)) - offset r
  | None => length (content r) - offset r
  end.

Definition blob_advance (n : nat) (r : Blob) : Blob :=
  mkBlob (content r) (offset r + n) (burst r) (fault r) (seekable r).

(** [r.Read(buf)] with [len(buf) = k]. *)
Definition blob_Read (k : nat) (r : Blob) : (list byte * option error) * Blob :=
  match k with
  | O => (([], None), r)
  | S _ =>
      match readable r with
      | O =>
          (([], Some (if Nat.leb (length (content r)) (offset r)
                      then EOF else ErrOther "read error")), r)
      | S _ =>
          let n := Nat.min k (Nat.min (S (burst r)) (readable r)) in
          ((take n (drop (offset r) (content r)), None), blob_advance n r)
      end
  end.

Definition SeekStart : Z := 0.
Definition SeekCurrent : Z := 1.
Definition SeekEnd : Z := 2.

(** [r.Seek(off, whence)] *)
Definition blob_Seek (off whence : Z) (r : Blob) : (Z + error) * Blob :=
  if negb (seekable r) then (inr (ErrOther "seek not supported"), r)
  else
    let base :=
      if (whence =? SeekStart)%Z then Some 0%Z
      else if (whence =? SeekCurrent)%Z then Some (Z.of_nat (offset r))
      else if (whence =? SeekEnd)%Z then Some (Z.of_nat (length (content r)))
      else None in
    match base with
    | None => (inr (ErrOther "invalid whence"), r)
    | Some b =>
        if (b + off <? 0)%Z then (inr (ErrOther "negative position"), r)
        else (inl (b + off)%Z,
              mkBlob (content r) (Z.to_nat (b + off)) (burst r) (fault r) (seekable r))
    end.

(** [io.ReadFull] on a blob stream: the loop of [io.ReadAtLeast].  Every
    round that does not fail delivers at least one byte, so [need] rounds
    are enough; [rounds] counts them down. *)
Fixpoint readAtLeast (rounds need : nat) (got : list byte) (r : Blob)
  : (list byte * option error) * Blob :=
  match need, rounds with
  | O, _ => ((got, None), r)
  | S _, O => ((got, Some (ErrOther "no progress")), r)
  | S _, S rounds' =>
      let '((b, err), r') := blob_Read need r in
      match err with
      | Some e =>
          let got' := got ++ b in
          ((got', Some (if isEOF e && negb (Nat.eqb (length got') 0)
                        then ErrUnexpectedEOF else e)), r')
      | None => readAtLeast rounds' (need - length b) (got ++ b) r'
      end
  end.

Definition blob_ReadFull (need : nat) (r : Blob) : (list byte * option error) * Blob :=
  readAtLeast need need [] r.

(** ** float64

    A finite IEEE 754 binary64 value is an integer multiple of [2^-1074];
    it is represented by that (signed) multiple.  [round64 a b] rounds the
    rational [a / b], counted in the same unit, to the nearest binary64
    value, ties to even: values below [2^53] units are integers of units,
    larger ones keep 53 significant bits.  Overflow to infinity is not
    modelled (no value here comes near [2^1024]). *)

Module Float64.

Local Open Scope Z_scope.

Definition unit_exp : Z := 1074.
Definition one : Z := 2 ^ unit_exp.

(** [a / b] rounded to the nearest integer, ties to the even one
    ([0 <= a], [0 < b]). *)
Definition rne_div (a b : Z) : Z :=
  let q := a / b in
  let r := a mod b in
  if 2 * r <? b then q
  else if b <? 2 * r then q + 1
  else if Z.even q then q else q + 1.

Definition round_pos (a b : Z) : Z :=
  let k := Z.max 0 (Z.log2 (a / b) - 52) in
  rne_div a (b * 2 ^ k) * 2 ^ k.

(** Rounding is symmetric around zero. *)
Definition round64 (a b : Z) : Z := Z.sgn a * round_pos (Z.abs a) b.

(** [float64(n)] for an integer [n] *)
Definition of_int (n : Z) : Z := round64 (n * one) 1.

(** [x + y] *)
Definition add (x y : Z) : Z := round64 (x + y) 1.

(** [x / y] for [0 < y] *)
Definition div (x y : Z) : Z := round64 (x * one) y.

(** [int(x)]: the fraction is discarded (truncation towards zero). *)
Definition to_int (x : Z) : Z := Z.quot x one.


(** The same computations on Rocq's primitive binary64 numbers, to
    compare the model with: the value of a finite [PrimFloat.float] in
    units of [2^-1074], and [float64(sec) + float64(nsec)/1e9]. *)
Definition units_of_prim (x : PrimFloat.float) : option Z :=
  match FloatOps.Prim2SF x with
  | SpecFloat.S754_zero _ => Some 0
  | SpecFloat.S754_finite s m e =>
      Some ((if s then -1 else 1) * Z.pos m * 2 ^ (e + unit_exp))
  | _ => None
  end.

Definition prim_of_int (n : Z) : PrimFloat.float :=
  PrimFloat.of_uint63 (Uint63.of_Z n).

Definition prim_seconds (sec nsec : Z) : PrimFloat.float :=
  PrimFloat.add (prim_of_int sec)
    (PrimFloat.div (prim_of_int nsec) (prim_of_int 1000000000)).

End Float64.

(** ** time *)

Module time.

Local Open Scope Z_scope.

(** A [time.Time] is an instant on the wall clock, in nanoseconds since
    the Unix epoch (an entry's [Lifetime] comes from the metadata store
    and carries no monotonic reading, so comparisons with it use the wall
    clock).  A [time.Duration] is an [int64] count of nanoseconds. *)
Definition Time : Type := Z.
Definition Duration : Type := Z.

Definition Nanosecond : Duration := 1.
Definition Second : Duration := 1000000000.

Definition minDuration : Duration := - 2 ^ 63.
Definition maxDuration : Duration := 2 ^ 63 - 1.

(** An [int64] computation wraps around. *)
Definition wrap64 (z : Z) : Z := (z + 2 ^ 63) mod 2 ^ 64 - 2 ^ 63.

(** [t.Before(u)] *)
Definition Before (t u : Time) : bool := t <? u.

(** [t.Equal(u)] *)
Definition Equal (t u : Time) : bool := t =? u.

(** [t.Add(d)] *)
Definition Add (t : Time) (d : Duration) : Time := t + d.

(** [t.Sub(u)]: the difference computed in [int64], replaced by the
    nearest bound when adding it back to [u] does not give [t]. *)
Definition Sub (t u : Time) : Duration :=
  let d := wrap64 (t - u) in
  if Equal (Add u d) t then d
  else if Before t u then minDuration
  else maxDuration.

(** [d.Seconds()]:
    [sec := d / Second; nsec := d % Second;
     return float64(sec) + float64(nsec)/1e9] *)
Definition Seconds (d : Duration) : Z :=
  let sec := Z.quot d Second in
  let nsec := Z.rem d Second in
  Float64.add (Float64.of_int sec)
              (Float64.div (Float64.of_int nsec) (Float64.of_int 1000000000)).

End time.

(** ** Libraries outside the repository

    What the handlers use of [zeebo/blake3], [gabriel-vasile/mimetype],
    [mime], [net/url], [strconv], [fmt] and [time]'s formatting is kept
    abstract. *)
Class Lib : Type := {
  (** [h.Sum(nil)] of a [blake3.New()] hasher after the given bytes were
      written to it: the BLAKE3 digest of these bytes. *)
  BLAKE3 : list byte -> list byte;
  (** [mimetype.Detect] and the [Is] and [String] methods of its result *)
  MIME : Type;
  Detect : list byte -> MIME;
  MIME_Is : MIME -> string -> bool;
  MIME_String : MIME -> string;
  (** [mime.TypeByExtension]; the empty string when the table has no
      entry for the extension *)
  TypeByExtension : string -> string;
  (** [url.PathEscape] and [strconv.Quote] (also the [%q] verb) *)
  PathEscape : string -> string;
  Quote : string -> string;
  (** [t.Format(http.TimeFormat)] *)
  FormatHTTP : time.Time -> string;
  (** [fmt.Sprintf(`W/"%x-%x"`, a, b)] *)
  SprintfWeakEtag : Z -> Z -> string
}.

(** The streaming hasher: the bytes written to it so far. *)
Record Hasher : Type := mkHasher { absorbed : list byte }.

Definition blake3_New : Hasher := mkHasher [].

#[export] Instance Hasher_Writer : Writer Hasher :=
  fun p h => ((len p, None), mkHasher (absorbed h ++ p)).

Definition Hasher_Sum `{Lib} (h : Hasher) : list byte := BLAKE3 (absorbed h).

(** ** database *)

Module database.

(** Modelled from the spec: [database.Entry], the metadata record, with
    the fields the handlers fill in and read (slug, name, digest, size,
    creation time, optional expiry instant). *)
Record Entry : Type := mkEntry {
  Slug : string;
  Name : string;
  Sum : string;
  Size : Z;
  Timestamp : time.Time;
  Lifetime : option time.Time
}.

(** Modelled from the spec: [database.Database], the metadata store,
    reached through [Create], [Lookup] (which answers [ErrNoResults] for
    a slug it does not hold) and [Ping]; the store is a parameter. *)
Class Database (D : Type) : Type := {
  Create : Entry -> D -> option error * D;
  Lookup : string -> D -> Entry + error;
  Ping : D -> option error
}.

End database.

(** ** filesystem *)

Module filesystem.

(** Modelled from the spec: [filesystem.FileSystem] and
    [filesystem.PipeReader], which are not part of the sources at hand.
    The blob store offers a streaming write keyed by the slug and an open
    by key.  [Create] is given a reader fed by a producer function
    through a pipe; here the producer is run on the write end [Pipe] that
    [start] opens for the key, and the store then completes the blob
    ([finish], which may fail, for instance when the key exists) or
    drops it when the producer failed ([abort]), in which case [Create]
    returns the producer's error. *)
Class FileSystem (F : Type) : Type := {
  Pipe : Type;
  Pipe_Writer :: Writer Pipe;
  start : string -> F -> Pipe;
  finish : string -> Pipe -> F -> option error * F;
  abort : string -> Pipe -> F -> F;
  Open : string -> F -> Blob + error
}.

(** [filesystem.PipeReader(f)]: the producer [f] acts on the write end of
    the pipe and on its own state [S]. *)
Definition PipeReader {P S : Type} (f : P -> S -> (option error * P) * S)
  : P -> S -> (option error * P) * S := f.

Definition Create {F} `{FileSystem F} {S : Type} (name : string)
    (r : Pipe -> S -> (option error * Pipe) * S) (fs : F) (st : S)
  : (option error * F) * S :=
  let '((err, pw), st') := r (start name fs) st in
  match err with
  | Some e => ((Some e, abort name pw fs), st')
  | None => (finish name pw fs, st')
  end.

End filesystem.

#[global] Existing Instance filesystem.Pipe_Writer.

(** ** net/http and mime/multipart as the handlers see them *)

(** The calls a handler makes on its [http.ResponseWriter], besides
    setting headers. *)
Inductive Reply : Type :=
| ReplyError (msg : string) (code : Z)        (* http.Error(w, msg, code) *)
| ReplyRedirect (url : string) (code : Z)     (* http.Redirect(w, r, url, code) *)
| ReplyWrite (s : string).                    (* io.WriteString(w, s) *)

Record ResponseWriter : Type := mkResponse {
  Header : gmap string string;
  replies : list Reply
}.

Definition newResponse : ResponseWriter := mkResponse ∅ [].

(** [w.Header().Set(k, v)] *)
Definition Header_Set (k v : string) (w : ResponseWriter) : ResponseWriter :=
  mkResponse (<[k := v]> (Header w)) (replies w).

Definition reply (x : Reply) (w : ResponseWriter) : ResponseWriter :=
  mkResponse (Header w) (replies w ++ [x]).

Definition http_Error (w : ResponseWriter) (msg : string) (code : Z) : ResponseWriter :=
  reply (ReplyError msg code) w.

Definition http_Redirect (w : ResponseWriter) (url : string) (code : Z) : ResponseWriter :=
  reply (ReplyRedirect url code) w.

Definition io_WriteString (w : ResponseWriter) (s : string) : ResponseWriter :=
  reply (ReplyWrite s) w.

Definition StatusSeeOther : Z := 303.
Definition StatusBadRequest : Z := 400.
Definition StatusRequestEntityTooLarge : Z := 413.
Definition StatusInternalServerError : Z := 500.

(** [http.StatusText] on the codes used here *)
Definition StatusText (code : Z) : string :=
  if (code =? 413)%Z then "Request Entity Too Large"
  else if (code =? 405)%Z then "Method Not Allowed"
  else "".

(** The status a response carries: the code of the first call that
    writes the header, and 200 when a plain write comes first. *)
Definition status_of (x : Reply) : Z :=
  match x with
  | ReplyError _ code => code
  | ReplyRedirect _ code => code
  | ReplyWrite _ => 200%Z
  end.

Definition Status (w : ResponseWriter) : option Z :=
  status_of <$> head (replies w).

(** A [multipart.Part]: its form name, its file name and its content. *)
Record Part : Type := mkPart {
  FormName : string;
  FileName : string;
  partBody : Reader
}.

(** A [multipart.Reader] is the script of what the successive [NextPart]
    calls return: parts, and then an error ([EOF] when the body holds no
    further part). *)
Inductive Parts : Type :=
| NextPart (p : Part) (rest : Parts)
| NoPart (e : error).

(** An [http.Request].  [decode] stands for the framing announced by the
    request's [Content-Type]: given the body reader it yields the
    multipart reader, or the error of [r.MultipartReader()]. *)
Record Request : Type := mkRequest {
  ContentLength : Z;
  Body : Reader;
  decode : Reader -> Parts + error
}.

Arguments mkRequest ContentLength%_Z Body decode.

Definition MultipartReader (r : Request) : Parts + error := decode r (Body r).

Definition setBody (r : Request) (b : Reader) : Request :=
  mkRequest (ContentLength r) b (decode r).

(** ** The server *)

(** What [http.Dir(s.PublicPath).Open(name)] finds: a file (with the
    result of its [Stat]), or an error. *)
Record FileInfo : Type := mkFileInfo {
  IsDir : bool;
  ModTimeUnix : Z;
  FileSize : Z
}.

Inductive PublicOpen : Type :=
| PublicFile (stat : FileInfo + error)
| PublicErr (e : error).

(** What is outside the request: the two stores, the public directory,
    the random source and the clock.  [clock n] is what the [n]-th call of
    [time.Now()] returns; [tick] counts the calls made so far. *)
Record State (D F : Type) : Type := mkState {
  db : D;
  fs : F;
  public : string -> PublicOpen;
  entropy : Reader;
  clock : nat -> time.Time;
  tick : nat
}.

Arguments mkState {D F}.
Arguments db {D F}.
Arguments fs {D F}.
Arguments public {D F}.
Arguments entropy {D F}.
Arguments clock {D F}.
Arguments tick {D F}.

Definition setDb {D F} (st : State D F) (d : D) : State D F :=
  mkState d (fs st) (public st) (entropy st) (clock st) (tick st).

Definition setFs {D F} (st : State D F) (f : F) : State D F :=
  mkState (db st) f (public st) (entropy st) (clock st) (tick st).

Definition setEntropy {D F} (st : State D F) (r : Reader) : State D F :=
  mkState (db st) (fs st) (public st) r (clock st) (tick st).

(** [time.Now()] *)
Definition Now {D F} (st : State D F) : time.Time * State D F :=
  (clock st (tick st),
   mkState (db st) (fs st) (public st) (entropy st) (clock st) (S (tick st))).

(** [Server]: the configuration fields (the stores are in the state). *)
Record Server : Type := mkServer {
  Lifetime : time.Duration;
  Limit : Z;
  PublicPath : string
}.

Arguments mkServer (Lifetime Limit)%_Z PublicPath%_string.

(** What the file-system function answers [http.FileServer]. *)
Inductive Opened : Type :=
| OpenedPublic (stat : FileInfo)                    (* a file of the public directory *)
| OpenedEntry (f : Blob) (e : database.Entry)       (* [&file{Reader: f, entry: e}] *)
| OpenFailed (err : error)
| OpenPanic.                                        (* a method call on a nil [http.File] *)

(** ** fs.go: the file handed to [http.FileServer] *)

Definition fileInfo_Mode (e : database.Entry) : Z := 384. (* 0600 *)

(** [file.Readdir]: always empty. *)
Definition file_Readdir (n : Z) : list database.Entry * option error := ([], None).

Section Handlers.

Context {Lb : Lib} {D F : Type} {DB : database.Database D} {FS : filesystem.FileSystem F}.

(** The loop over [mr.NextPart()] that looks for the part named "file". *)
Fixpoint findFile (mr : Parts) : Part + error :=
  match mr with
  | NoPart err => inr err
  | NextPart p rest =>
      if String.eqb (FormName p) "file" then inl p else findFile rest
  end.

(** The function [UploadHandler] hands to [filesystem.PipeReader]. *)
Definition uploadPipe (s : Server) (slug name : string) (p : Part)
    (w : filesystem.Pipe) (st : State D F)
  : (option error * filesystem.Pipe) * State D F :=
  let h := blake3_New in
  let '((n, err), (w, h)) := Copy (w, h) (partBody p) in
  match err with
  | Some e => ((Some (Wrap "copy" e), w), st)
  | None =>
      let '(now, st) := Now st in
      let l := if (0 <? Lifetime s)%Z
               then Some (time.Add now (Lifetime s)) else None in
      let '(err, d) :=
        database.Create
          (database.mkEntry slug name
             (Base64.EncodeToString (Hasher_Sum h)) n now l)
          (db st) in
      let st := setDb st d in
      match err with
      | Some e => ((Some (Wrap "create entry" e), w), st)
      | None => ((None, w), st)
      end
  end.

(** [Server.UploadHandler] *)
Definition UploadHandler (s : Server) (w : ResponseWriter) (r : Request)
    (st : State D F) : ResponseWriter * State D F :=
  if (Limit s <? ContentLength r)%Z then
    (http_Error w (StatusText StatusRequestEntityTooLarge)
       StatusRequestEntityTooLarge, st)
  else
    let r := setBody r (MaxBytesReader (Body r) (Limit s)) in
    match MultipartReader r with
    | inr err => (http_Error w (Error_ err) StatusBadRequest, st)
    | inl mr =>
        match findFile mr with
        | inr err => (http_Error w (Error_ err) StatusBadRequest, st)
        | inl p =>
            let name := FileName p in
            if Nat.ltb 255 (String.length name) then
              (http_Error w "invalid name" StatusBadRequest, st)
            else
              let '((b, err), rnd) := ReadFull (entropy st) 9 [] in
              let st := setEntropy st rnd in
              match err with
              | Some e =>
                  (http_Error w (Error_ e) StatusInternalServerError, st)
              | None =>
                  let slug := Base64.EncodeToString b in
                  let '((err, f), st) :=
                    filesystem.Create slug
                      (filesystem.PipeReader (uploadPipe s slug name p))
                      (fs st) st in
                  let st := setFs st f in
                  match err with
                  | Some e =>
                      (http_Error w (Error_ e) StatusInternalServerError, st)
                  | None =>
                      let ext := Ext name in
                      let sb := "/" +:+ slug +:+ ext in
                      let w := http_Redirect w sb StatusSeeOther in
                      let sb := sb +:+ String "010" "" in
                      (io_WriteString w sb, st)
                  end
              end
        end
    end.

(** The request passes the checks that come before the copy: the declared
    length is within the limit, the body holds a part named "file" ([p])
    whose file name is not too long, and nine random bytes ([b]) were
    drawn, which leaves the random source as [rnd]. *)
Definition reachesCopy (s : Server) (r : Request) (st : State D F)
    (p : Part) (b : list byte) (rnd : Reader) : Prop :=
  (ContentLength r <= Limit s)%Z /\
  (exists mr,
     MultipartReader (setBody r (MaxBytesReader (Body r) (Limit s))) = inl mr /\
     findFile mr = inl p) /\
  (String.length (FileName p) <= 255)%nat /\
  ReadFull (entropy st) 9 [] = ((b, None), rnd).

(** What [s.FileSystem.Create] returns in an upload that reached the copy. *)
Definition createBlob (s : Server) (st : State D F) (p : Part)
    (b : list byte) (rnd : Reader) : (option error * F) * State D F :=
  let slug := Base64.EncodeToString b in
  filesystem.Create slug
    (filesystem.PipeReader (uploadPipe s slug (FileName p) p))
    (fs st) (setEntropy st rnd).

(** The copy of such an upload: [io.Copy(io.MultiWriter(w, h), p)]. *)
Definition copyPart (st : State D F) (p : Part) (b : list byte)
  : (Z * option error) * (filesystem.Pipe * Hasher) :=
  Copy (filesystem.start (Base64.EncodeToString b) (fs st), blake3_New)
       (partBody p).

(** The end of [detectContentType], from [m := mimetype.Detect(b[:n])]
    on: the sniffed type, unless it is the generic one and the extension
    table knows the extension of the name. *)
Definition classify (name : string) (b : list byte) : string :=
  let m := Detect b in
  if MIME_Is m "application/octet-stream" then
    let ctype := TypeByExtension (Ext name) in
    if negb (String.eqb ctype "") then ctype
    else MIME_String m
  else MIME_String m.

(** [detectContentType] *)
Definition detectContentType (name : string) (r : Blob)
  : (string * option error) * Blob :=
  let '((b, _), r) := blob_ReadFull 3072 r in
  let '(pos, r) := blob_Seek 0 SeekStart r in
  match pos with
  | inr _ => (("", Some ErrSeek), r)
  | inl _ => ((classify name b, None), r)
  end.

(** The rewrite of an HTML type: [ctype[len(prefix):]] after "text/plain". *)
Definition htmlPrefix : string := "text/html".

Definition plainText (ctype : string) : string :=
  if HasPrefix ctype htmlPrefix
  then "text/plain" +:+ string_drop (String.length htmlPrefix) ctype
  else ctype.

(** [int(e.Lifetime.Sub(now).Seconds())] *)
Definition remaining (lifetime now : time.Time) : Z :=
  Float64.to_int (time.Seconds (time.Sub lifetime now)).

(** The [Cache-Control] value of an entry that expires. *)
Definition revalidate (lifetime now : time.Time) : string :=
  "public, must-revalidate, max-age=" +:+ pretty (remaining lifetime now).

(** The [Content-Disposition] value:
    [fmt.Sprintf("filename=%q; filename*=UTF-8''%[1]s", url.PathEscape(e.Name))] *)
Definition disposition (name : string) : string :=
  "filename=" +:+ Quote (PathEscape name) +:+ "; filename*=UTF-8''" +:+ PathEscape name.

(** [os.IsNotExist] (it does not follow [%w] chains) *)
Definition isNotExist (e : error) : bool :=
  match e with ErrNotExist => true | _ => false end.

(** The headers of a served entry (the [w.Header().Set] calls). *)
Definition setEntryHeaders (cache ctype : string) (e : database.Entry)
    (w : ResponseWriter) : ResponseWriter :=
  let w := Header_Set "Cache-Control" cache w in
  let w := Header_Set "Content-Disposition" (disposition (database.Name e)) w in
  let w := Header_Set "Content-Type" ctype w in
  let w := Header_Set "Etag" (Quote (database.Sum e)) w in
  let w :=
    match database.Lifetime e with
    | Some lifetime => Header_Set "Expires" (FormatHTTP lifetime) w
    | None => w
    end in
  Header_Set "X-Content-Type-Options" "nosniff" w.

(** The file-system function from [f, err := s.FileSystem.Open(...)] on:
    open the blob, detect its type, rewrite an HTML type, set the
    headers. *)
Definition serveBlob (cache : string) (e : database.Entry)
    (w : ResponseWriter) (st : State D F)
  : (Opened * ResponseWriter) * State D F :=
  match filesystem.Open (database.Slug e) (fs st) with
  | inr err => (OpenFailed err, w, st)
  | inl f =>
      let '((ctype, err), f) := detectContentType (database.Name e) f in
      match err with
      | Some err => (OpenFailed (Wrap "detect content type" err), w, st)
      | None =>
          let ctype := plainText ctype in
          (OpenedEntry f e, setEntryHeaders cache ctype e w, st)
      end
  end.

(** The file-system function from
    [e, err := s.Database.Lookup(r.Context(), name)] on: look the slug
    up, check the expiry, choose the [Cache-Control] value. *)
Definition serveEntry (w : ResponseWriter) (name : string) (st : State D F)
  : (Opened * ResponseWriter) * State D F :=
  match database.Lookup name (db st) with
  | inr err =>
      if errors_Is err isNoResults then (OpenFailed ErrNotExist, w, st)
      else (OpenFailed err, w, st)
  | inl e =>
      let cache := "max-age=31536000" in (* ~ 1 year *)
      match database.Lifetime e with
      | Some lifetime =>
          let '(now, st) := Now st in
          if time.Before lifetime now then (OpenFailed ErrNotExist, w, st)
          else serveBlob (revalidate lifetime now) e w st
      | None => serveBlob cache e w st
      end
  end.

(** The function [ServeHTTP] gives [http.FileServer] as its file system:
    [fileSystemFunc(func(name string) (http.File, error) {...})].  A file
    of the public directory comes first; any error of that directory
    other than "does not exist" leaves a nil file whose [Stat] is then
    called. *)
Definition serveOpen (s : Server) (w : ResponseWriter) (name : string)
    (st : State D F) : (Opened * ResponseWriter) * State D F :=
  match public st name with
  | PublicFile (inr err) => (OpenFailed err, w, st)
  | PublicFile (inl d) =>
      if negb (IsDir d) then
        let w := Header_Set "Cache-Control" "max-age=31536000" w in
        let w := Header_Set "Etag"
                   (SprintfWeakEtag (ModTimeUnix d) (FileSize d)) w in
        (OpenedPublic d, w, st)
      else (OpenedPublic d, w, st)
  | PublicErr e =>
      if negb (isNotExist e) then (OpenPanic, w, st)
      else
        let '(dir, name) := path_Split name in
        if negb (String.eqb dir "/") then (OpenFailed ErrNotExist, w, st)
        else
          (* trim anything after the first "." *)
          let name :=
            match index_dot name with
            | Some i => string_take i name
            | None => name
            end in
          serveEntry w name st
  end.

End Handlers.

(** ** [ServeHTTP]: methods and reserved paths *)

Definition StatusMethodNotAllowed : Z := 405.

(** Where [ServeHTTP] ends: it has replied itself, or it has handed the
    request to the metrics handler, or to [http.FileServer] with its
    file-system function. *)
Inductive Served (D F : Type) : Type :=
| Answered (w : ResponseWriter) (st : State D F)
| ToMetrics (w : ResponseWriter) (st : State D F)
| ToFileServer
    (open : string -> State D F -> (Opened * ResponseWriter) * State D F)
    (w : ResponseWriter) (st : State D F).

Arguments Answered {D F}.
Arguments ToMetrics {D F}.
Arguments ToFileServer {D F}.

Section Routing.

Context {Lb : Lib} {D F : Type} {DB : database.Database D} {FS : filesystem.FileSystem F}.

(** [Server.Health]: ping the metadata store (within a second); a failed
    ping is answered with 500 and the text of the error. *)
Definition Health (w : ResponseWriter) (st : State D F) : ResponseWriter * State D F :=
  match database.Ping (db st) with
  | Some err => (http_Error w (Error_ err) StatusInternalServerError, st)
  | None => (w, st)
  end.

(** The [default] branch of the switch on the method, which a [POST] to
    another path than "/" falls through to. *)
Definition notAllowed (w : ResponseWriter) (method path : string) : ResponseWriter :=
  let allow :=
    if String.eqb path "/" then "GET, HEAD, OPTIONS, POST"
    else "GET, HEAD, OPTIONS" in
  if String.eqb method "OPTIONS" then
    Header_Set "Access-Control-Allow-Methods" allow w
  else
    http_Error (Header_Set "Allow" allow w)
      (StatusText StatusMethodNotAllowed) StatusMethodNotAllowed.

(** [Server.ServeHTTP]; [method] is [r.Method] and [path] is
    [r.URL.Path]. *)
Definition ServeHTTP (s : Server) (w : ResponseWriter) (method path : string)
    (r : Request) (st : State D F) : Served D F :=
  let routed :=
    if String.eqb method "GET" || String.eqb method "HEAD" then None
    else if String.eqb method "POST" then
      if String.eqb path "/" then
        let '(w, st) := UploadHandler s w r st in Some (Answered w st)
      else Some (Answered (notAllowed w method path) st)
    else Some (Answered (notAllowed w method path) st) in
  match routed with
  | Some out => out
  | None =>
      if String.eqb path "/healthz" then
        let '(w, st) := Health w st in Answered w st
      else if String.eqb path "/varz" then ToMetrics w st
      else ToFileServer (serveOpen s w) w st
  end.

End Routing.

(** ** Predicates on names and parts, to state properties with *)

(** The string holds no byte [c]. *)
Fixpoint lacks (c : ascii) (s : string) : bool :=
  match s with
  | "" => true
  | String a s' => negb (Ascii.eqb a c) && lacks c s'
  end.

(** Parts that come before the rest of a multipart script. *)
Fixpoint prepend (ps : list Part) (mr : Parts) : Parts :=
  match ps with
  | [] => mr
  | p :: ps' => NextPart p (prepend ps' mr)
  end.

(** No part of the list is named "file". *)
Definition noneIsFile (ps : list Part) : Prop :=
  Forall (fun p => String.eqb (FormName p) "file" = false) ps.

(** ** In-memory stores and a small library, to run the handlers *)

Module memory.

(** Modelled from the spec: a metadata store keyed by slug, in which
    slugs are unique, and which answers "no results" for a slug it does
    not hold. *)
#[export] Instance memDatabase : database.Database (gmap string database.Entry) := {
  database.Create e d :=
    match d !! database.Slug e with
    | Some _ => (Some (ErrOther "duplicate slug"), d)
    | None => (None, <[database.Slug e := e]> d)
    end;
  database.Lookup slug d :=
    match d !! slug with
    | Some e => inl e
    | None => inr ErrNoResults
    end;
  database.Ping _ := None
}.

(** Modelled from the spec: a blob store keyed by slug whose write fails
    when the key exists; the pipe collects the bytes written to it. *)
#[export] Instance memFileSystem : filesystem.FileSystem (gmap string (list byte)) := {
  filesystem.Pipe := list byte;
  filesystem.Pipe_Writer := fun p w => ((len p, None), w ++ p);
  filesystem.start _ _ := [];
  filesystem.finish name pw f :=
    match f !! name with
    | Some _ => (Some (ErrOther "file exists"), f)
    | None => (None, <[name := pw]> f)
    end;
  filesystem.abort _ _ f := f;
  filesystem.Open name f :=
    match f !! name with
    | Some b => inl (mkBlob b 0 511 None true)
    | None => inr ErrNotExist
    end
}.

Definition startsWith (p : string) (b : list byte) : bool :=
  HasPrefix (string_of_list_byte b) p.

#[global] Arguments startsWith : simpl never.

(** Stand-ins for the libraries: a digest that is not BLAKE3, a sniffer
    that knows HTML and PDF signatures, a two-line extension table. *)
#[export] Instance sampleLib : Lib := {
  BLAKE3 b := rev b;
  MIME := string;
  Detect b :=
    if startsWith "<html" b then "text/html; charset=utf-8"
    else if startsWith "%PDF-" b then "application/pdf"
    else "application/octet-stream";
  MIME_Is m t := HasPrefix m t;
  MIME_String m := m;
  TypeByExtension ext :=
    if String.eqb ext ".txt" then "text/plain; charset=utf-8"
    else if String.eqb ext ".svg" then "image/svg+xml"
    else "";
  PathEscape n := n;
  Quote n := String "034" n +:+ String "034" "";
  FormatHTTP t := pretty t;
  SprintfWeakEtag a b := "W/" +:+ pretty a +:+ "-" +:+ pretty b
}.

Definition emptyState (rnd : Reader) (now : nat -> time.Time)
  : State (gmap string database.Entry) (gmap string (list byte)) :=
  mkState ∅ ∅ (fun _ => PublicErr ErrNotExist) rnd now 0.

(** A framing with a single part: the part is named "file", carries the
    file name [name], and reading it reads the body. *)
Definition onePart (name : string) (body : Reader) : Parts + error :=
  inl (NextPart (mkPart "file" name body) (NoPart EOF)).


(** An upload of a small HTML page named "report.final.html", with a
    five-second lifetime and a limit of a hundred bytes. *)
Definition sampleServer : Server := mkServer 5000000000 100 "/public".

Definition sampleBody : Reader :=
  Data (list_byte_of_string "<html>hi</html>")
    (Data (list_byte_of_string "more") (End_ EOF)).

Definition sampleEntropy : Reader :=
  Data [x01; x02; x03; x04; x05] (Data [x06; x07; x08; x09; x0a; x0b] (End_ EOF)).

Definition sampleClock (n : nat) : time.Time := (1000 + Z.of_nat n)%Z.

Definition sampleState
  : State (gmap string database.Entry) (gmap string (list byte)) :=
  emptyState sampleEntropy sampleClock.

Definition sampleRequest : Request :=
  mkRequest 19 sampleBody (onePart "report.final.html").

Definition samplePart : Part :=
  mkPart "file" "report.final.html" (MaxBytesReader sampleBody 100).

(** The nine bytes this upload draws, and what is left of the random
    source. *)
Definition drawnBytes : list byte := [x01; x02; x03; x04; x05; x06; x07; x08; x09].

Definition entropyLeft : Reader := Data [x0a; x0b] (End_ EOF).



(** A store that holds the page under one slug, with the given expiry,
    and a clock that shows [now]. *)
Definition storedSlug : string := "AQIDBAUGBwgJ".

Definition storedEntry (lifetime : option time.Time) : database.Entry :=
  database.mkEntry storedSlug "report.final.html"
    "ZXJvbT5sbXRoLzxpaD5sbXRoPA" 19%Z 1000%Z lifetime.

Definition storedState (lifetime : option time.Time) (now : time.Time)
  : State (gmap string database.Entry) (gmap string (list byte)) :=
  mkState {[ storedSlug := storedEntry lifetime ]}
          {[ storedSlug := list_byte_of_string "<html>hi</html>more" ]}
          (fun _ => PublicErr ErrNotExist) (End_ EOF) (fun _ => now) 0.

(** The stream [Open] returns for that slug. *)
Definition storedBlob : Blob :=
  mkBlob (list_byte_of_string "<html>hi</html>more") 0 511 None true.

End memory.

(** ** Further requests and states, to run the handlers on *)

Module scenarios.

Import memory.

(** A part that is not the file: a text field of the form. *)
Definition notePart : Part :=
  mkPart "note" "" (Data (list_byte_of_string "hello") (End_ EOF)).

(** A body whose only part is that field. *)
Definition noFileRequest : Request :=
  mkRequest 19 sampleBody (fun _ => inl (prepend [notePart] (NoPart EOF))).

(** The sample upload, declared five hundred bytes long. *)
Definition declaredTooLarge : Request :=
  mkRequest 500 sampleBody (onePart "report.final.html").

(** A random source that runs dry after two bytes. *)
Definition dryState
  : State (gmap string database.Entry) (gmap string (list byte)) :=
  emptyState (Data [x01; x02] (End_ EOF)) sampleClock.

(** A blob store in which the slug of the sample upload is taken, while
    the metadata store is empty. *)
Definition takenState
  : State (gmap string database.Entry) (gmap string (list byte)) :=
  mkState ∅ {[ storedSlug := [] ]} (fun _ => PublicErr ErrNotExist)
          sampleEntropy sampleClock 0.

(** A public directory with one page, and one name it may not read. *)
Definition indexInfo : FileInfo := mkFileInfo false 1700000000%Z 2048%Z.

Definition publicDir (name : string) : PublicOpen :=
  if String.eqb name "/index.html" then PublicFile (inl indexInfo)
  else if String.eqb name "/secret" then PublicErr (ErrOther "permission denied")
  else PublicErr ErrNotExist.

Definition publicState
  : State (gmap string database.Entry) (gmap string (list byte)) :=
  mkState ∅ ∅ publicDir (End_ EOF) sampleClock 0.

(** The same directory beside stores that hold the sample page. *)
Definition publicStored
  : State (gmap string database.Entry) (gmap string (list byte)) :=
  mkState {[ storedSlug := storedEntry None ]}
          {[ storedSlug := list_byte_of_string "<html>hi</html>more" ]}
          publicDir sampleEntropy (fun _ => 7000%Z) 3.

End scenarios.

(** * Properties *)

(** ** Strings and paths *)

Example Ext_last_dot : Ext "report.final.pdf" = ".pdf".
Proof. reflexivity. Qed.

Example Ext_none : Ext "archive.d/readme" = "".
Proof. reflexivity. Qed.

Example Split_single : path_Split "/AQIDBAUGBwgJ.html" = ("/", "AQIDBAUGBwgJ.html").
Proof. reflexivity. Qed.

Example Split_nested : path_Split "/a/b" = ("/a/", "b").
Proof. reflexivity. Qed.

(** ** base64 *)

Example EncodeToString_Man :
  Base64.EncodeToString [x4d; x61; x6e] = "TWFu" /\
  Base64.EncodeToString [x4d; x61] = "TWE" /\
  Base64.EncodeToString [xfb; xff] = "-_8".
Proof. repeat split. Qed.

Lemma list_ind3 {A} (P : list A -> Prop) :
  P [] -> (forall a, P [a]) -> (forall a b, P [a; b]) ->
  (forall a b c l, P l -> P (a :: b :: c :: l)) ->
  forall l, P l.
Proof.
  intros H0 H1 H2 H3.
  assert (forall l, P l /\ (forall a, P (a :: l)) /\ (forall a b, P (a :: b :: l))) as Hall.
  { induction l as [|x l IH].
    - auto.
    - destruct IH as (Hl & Hl1 & Hl2). repeat split; auto. }
  intros l. apply Hall.
Qed.

Lemma alphabet_urlsafe (n : nat) :
  (n < 64)%nat ->
  Base64.urlsafe (default "="%char (String.get n Base64.encodeURL)) = true.
Proof.
  intros Hn.
  do 64 (destruct n as [|n]; [reflexivity|]).
  lia.
Qed.

Lemma digit_urlsafe (val shift : N) : Base64.urlsafe (Base64.digit val shift) = true.
Proof.
  unfold Base64.digit. apply alphabet_urlsafe.
  assert (N.land (N.shiftr val shift) 63 < 64)%N as Hlt.
  { change 63%N with (N.ones 6). rewrite N.land_ones.
    apply N.mod_lt. discriminate. }
  lia.
Qed.

Lemma EncodeToString_urlsafe (src : list byte) :
  Base64.all_urlsafe (Base64.EncodeToString src) = true.
Proof.
  induction src as [|a|a b|a b c l IH] using list_ind3;
    cbn [Base64.EncodeToString Base64.all_urlsafe];
    rewrite ?digit_urlsafe; auto.
Qed.

Lemma EncodeToString_length (src : list byte) :
  Z.of_nat (String.length (Base64.EncodeToString src))
  = ((Z.of_nat (length src) * 8 + 5) / 6)%Z.
Proof.
  induction src as [|a|a b|a b c l IH] using list_ind3; try reflexivity.
  cbn [Base64.EncodeToString String.length length].
  rewrite !Nat2Z.inj_succ, IH.
  replace ((Z.succ (Z.succ (Z.succ (Z.of_nat (length l)))) * 8 + 5))%Z
    with ((Z.of_nat (length l) * 8 + 5) + 4 * 6)%Z by lia.
  rewrite Z.div_add by lia. lia.
Qed.

(** ** io *)

Lemma ReadFull_ok (r : Reader) : forall need got b r',
  ReadFull r need got = ((b, None), r') ->
  b = got ++ take need (contents r) /\ length b = (length got + need)%nat.
Proof.
  induction r as [chunk next IH|e]; intros need got b r' Hrf.
  - destruct need as [|k].
    + cbn in Hrf. inversion Hrf; subst. rewrite take_0, app_nil_r.
      split; [done|lia].
    + cbn [ReadFull contents] in Hrf |- *.
      destruct (Nat.leb (length chunk) (S k)) eqn:Hle.
      * apply Nat.leb_le in Hle. apply IH in Hrf as [-> Hlen]. split.
        -- rewrite take_app_ge by lia. by rewrite <- app_assoc.
        -- rewrite Hlen, length_app. lia.
      * apply Nat.leb_gt in Hle. inversion Hrf; subst.
        rewrite take_app_le by lia. split; [done|].
        rewrite length_app, length_take. lia.
  - destruct need as [|k]; cbn in Hrf; inversion Hrf; subst.
    rewrite take_0, app_nil_r. split; [done|lia].
Qed.

Lemma Hasher_Write_eq (p : list byte) (h : Hasher) :
  Write p h = ((len p, None), mkHasher (absorbed h ++ p)).
Proof. reflexivity. Qed.

Lemma writes_concat (src : Reader) : concat (writes src) = contents src.
Proof.
  induction src as [buf next IH|e]; [|done]. cbn [writes contents].
  destruct (0 <? len buf)%Z eqn:Hnr; cbn; rewrite IH; [done|].
  apply Z.ltb_ge in Hnr. unfold len in Hnr. destruct buf; [done|cbn in Hnr; lia].
Qed.

(** A copy into [io.MultiWriter(w, h)] that reports no error has passed
    every byte of the source to the hasher and, in full writes, to [w],
    and counts them all. *)
Lemma copyBuffer_multi_ok {W} `{Writer W} (src : Reader) :
  forall (w : W) (h : Hasher) written n w' h',
  copyBuffer (w, h) src written = ((n, None), (w', h')) ->
  n = (written + len (contents src))%Z /\
  absorbed h' = absorbed h ++ contents src /\
  takesAll (writes src) w = Some w'.
Proof.
  induction src as [buf next IH|e]; intros w h written n w' h' Hc.
  - cbn [copyBuffer contents writes] in Hc |- *.
    destruct (0 <? len buf)%Z eqn:Hnr.
    + unfold Write at 1 in Hc. unfold MultiWriter, multiWrite in Hc.
      cbn [fst snd takesAll] in Hc |- *.
      destruct (Write buf w) as [[n1 e1] w1].
      destruct e1 as [e1|].
      { destruct ((n1 <? 0) || (len buf <? n1))%Z; discriminate. }
      destruct (n1 =? len buf)%Z eqn:Hn1; cbn [negb] in Hc.
      2:{ destruct ((n1 <? 0) || (len buf <? n1))%Z; discriminate. }
      rewrite Hasher_Write_eq in Hc.
      rewrite Z.eqb_refl in Hc. cbn [negb] in Hc.
      replace ((len buf <? 0) || (len buf <? len buf))%Z with false in Hc
        by (unfold len; symmetry; apply orb_false_iff; split;
            [apply Z.ltb_ge; lia | apply Z.ltb_irrefl]).
      rewrite Z.eqb_refl in Hc. cbn [negb] in Hc.
      apply IH in Hc as (-> & -> & Htakes). cbn [absorbed].
      unfold len. rewrite length_app, <- app_assoc. split; [lia|done].
    + assert (buf = []) as ->.
      { apply Z.ltb_ge in Hnr. unfold len in Hnr. destruct buf; [done|cbn in Hnr; lia]. }
      apply IH in Hc as (-> & -> & Htakes). done.
  - cbn in Hc. destruct (isEOF e); inversion Hc; subst.
    cbn. rewrite app_nil_r. unfold len. cbn. split; [lia|done].
Qed.




(** *** Blob streams *)

Lemma readable_le (r : Blob) : (readable r <= length (content r) - offset r)%nat.
Proof. unfold readable. destruct (fault r); lia. Qed.

Lemma readable_advance (n : nat) (r : Blob) :
  readable (blob_advance n r) = (readable r - n)%nat.
Proof. unfold readable, blob_advance. cbn. destruct (fault r); lia. Qed.

Lemma blob_advance_0 (r : Blob) : blob_advance 0 r = r.
Proof. destruct r. unfold blob_advance. cbn. by rewrite Nat.add_0_r. Qed.

Lemma take_take_drop {A} (l : list A) (n m : nat) :
  take n l ++ take m (drop n l) = take (n + m) l.
Proof.
  revert l. induction n as [|n IH]; intros l; [done|].
  destruct l as [|x l]; [by rewrite drop_nil, !take_nil|].
  cbn. by rewrite IH.
Qed.

(** [ReadAtLeast] delivers the next [need] bytes of the stream, or all
    that can be read when there are fewer, and moves the position past
    them; it needs no more rounds than bytes. *)
Lemma readAtLeast_spec : forall rounds need got r,
  (need <= rounds)%nat ->
  let k := Nat.min need (readable r) in
  exists err,
    readAtLeast rounds need got r
    = ((got ++ take k (drop (offset r) (content r)), err), blob_advance k r)
    /\ (err = None <-> (need <= readable r)%nat).
Proof.
  induction rounds as [|rounds IH]; intros need got r Hle k.
  - assert (need = O) as -> by lia. subst k. cbn.
    exists None. rewrite app_nil_r, blob_advance_0. split; [done|]. split; [lia|done].
  - destruct need as [|need'].
    + subst k. cbn. exists None. rewrite app_nil_r, blob_advance_0.
      split; [done|]. split; [lia|done].
    + cbn [readAtLeast]. unfold blob_Read.
      destruct (readable r) as [|a] eqn:Ha.
      * subst k. rewrite ?Ha, Nat.min_0_r. cbn [take]. rewrite !app_nil_r.
        rewrite blob_advance_0. eexists. split; [reflexivity|].
        split; [discriminate|lia].
      * set (n := Nat.min (S need') (Nat.min (S (burst r)) (S a))).
        assert (1 <= n <= S need' /\ n <= S a)%nat as Hn by (subst n; lia).
        pose proof (readable_le r) as Hrl. rewrite Ha in Hrl.
        assert (length (take n (drop (offset r) (content r))) = n) as Hlen.
        { rewrite length_take, length_drop. lia. }
        rewrite Hlen.
        destruct (IH (S need' - n)%nat
                    (got ++ take n (drop (offset r) (content r)))
                    (blob_advance n r)) as (err & Heq & Herr); [lia|].
        rewrite readable_advance, Ha in Heq, Herr.
        exists err. split.
        -- rewrite Heq. subst k. rewrite ?Ha.
           replace (Nat.min (S need') (S a))
             with (n + Nat.min (S need' - n) (S a - n))%nat by lia.
           f_equal.
           ++ f_equal. rewrite <- app_assoc. f_equal.
              rewrite <- take_take_drop. f_equal.
              cbn [blob_advance content offset]. by rewrite drop_drop.
           ++ unfold blob_advance. cbn. f_equal. lia.
        -- rewrite Herr. lia.
Qed.

Lemma blob_ReadFull_spec (need : nat) (r : Blob) :
  let k := Nat.min need (readable r) in
  exists err,
    blob_ReadFull need r
    = ((take k (drop (offset r) (content r)), err), blob_advance k r).
Proof.
  intros k. unfold blob_ReadFull.
  destruct (readAtLeast_spec need need [] r (Nat.le_refl _)) as (err & Heq & _).
  exists err. exact Heq.
Qed.

(** ** float64 *)

Section Float64Facts.

Local Open Scope Z_scope.



















End Float64Facts.

(** ** time *)

Section TimeFacts.

Local Open Scope Z_scope.


Lemma wrap64_range (z : Z) : - 2 ^ 63 <= time.wrap64 z < 2 ^ 63.
Proof.
  unfold time.wrap64.
  pose proof (Z.mod_pos_bound (z + 2 ^ 63) (2 ^ 64) ltac:(lia)). lia.
Qed.



Lemma Sub_le_max (t u : time.Time) : time.Sub t u <= time.maxDuration.
Proof.
  unfold time.Sub. pose proof (wrap64_range (t - u)).
  unfold time.maxDuration, time.minDuration.
  destruct (time.Equal _ _); [lia|]. destruct (time.Before _ _); lia.
Qed.






(** The model and the primitive binary64 numbers agree where the rounding
    shows: one nanosecond short of a second, below and at [2^24]
    seconds, and near the largest duration. *)
Example Seconds_as_binary64 :
  Float64.units_of_prim (Float64.prim_seconds 16777215 999999999)
  = Some (time.Seconds 16777215999999999) /\
  Float64.units_of_prim (Float64.prim_seconds 16777216 999999999)
  = Some (time.Seconds 16777216999999999) /\
  Float64.units_of_prim (Float64.prim_seconds 9223372036 854775807)
  = Some (time.Seconds time.maxDuration) /\
  Float64.units_of_prim (Float64.prim_seconds 4 999999999)
  = Some (time.Seconds 4999999999).
Proof. repeat split; vm_compute; reflexivity. Qed.

Example Seconds_rounds_up :
  Float64.to_int (time.Seconds 16777215999999999) = 16777215 /\
  Float64.to_int (time.Seconds 16777216999999999) = 16777217.
Proof. split; vm_compute; reflexivity. Qed.

End TimeFacts.

(** ** The upload handler *)

Section UploadFacts.

Context {Lb : Lib} {D F : Type} {DB : database.Database D} {FS : filesystem.FileSystem F}.

Implicit Types (s : Server) (w : ResponseWriter) (r : Request) (st : State D F).

Lemma UploadHandler_declared s w r st :
  (Limit s < ContentLength r)%Z ->
  UploadHandler s w r st
  = (http_Error w "Request Entity Too Large" StatusRequestEntityTooLarge, st).
Proof.
  intros Hlt. unfold UploadHandler.
  apply Z.ltb_lt in Hlt. by rewrite Hlt.
Qed.

Lemma UploadHandler_no_part s w r st mr e :
  (ContentLength r <= Limit s)%Z ->
  MultipartReader (setBody r (MaxBytesReader (Body r) (Limit s))) = inl mr ->
  findFile mr = inr e ->
  UploadHandler s w r st = (http_Error w (Error_ e) StatusBadRequest, st).
Proof.
  intros Hle Hmr Hfind. unfold UploadHandler.
  apply Z.ltb_ge in Hle. by rewrite Hle, Hmr, Hfind.
Qed.

(** From the copy on, the handler is [s.FileSystem.Create] followed by
    the reply. *)
Lemma UploadHandler_reaches s w r st p b rnd :
  reachesCopy s r st p b rnd ->
  UploadHandler s w r st =
    (match (createBlob s st p b rnd).1.1 with
     | Some e => http_Error w (Error_ e) StatusInternalServerError
     | None =>
         let sb := "/" +:+ Base64.EncodeToString b +:+ Ext (FileName p) in
         io_WriteString (http_Redirect w sb StatusSeeOther) (sb +:+ String "010" "")
     end,
     setFs (createBlob s st p b rnd).2 (createBlob s st p b rnd).1.2).
Proof.
  intros (Hle & (mr & Hmr & Hfind) & Hname & Hrand). unfold UploadHandler.
  apply Z.ltb_ge in Hle. rewrite Hle, Hmr, Hfind.
  replace (Nat.ltb 255 (String.length (FileName p))) with false
    by (symmetry; apply Nat.ltb_ge; lia).
  rewrite Hrand. unfold createBlob.
  destruct (filesystem.Create _ _ _ _) as [[err f] st'].
  cbn [fst snd]. by destruct err.
Qed.

Lemma uploadPipe_copy_failed s slug name p (pw : filesystem.Pipe) st n e pw' h' :
  Copy (pw, blake3_New) (partBody p) = ((n, Some e), (pw', h')) ->
  uploadPipe s slug name p pw st = ((Some (Wrap "copy" e), pw'), st).
Proof. intros Hc. unfold uploadPipe. by rewrite Hc. Qed.

Lemma uploadPipe_copied s slug name p (pw : filesystem.Pipe) st n pw' h' :
  Copy (pw, blake3_New) (partBody p) = ((n, None), (pw', h')) ->
  let body := contents (partBody p) in
  let now := clock st (tick st) in
  let e := database.mkEntry slug name
             (Base64.EncodeToString (BLAKE3 body)) (len body) now
             (if (0 <? Lifetime s)%Z then Some (now + Lifetime s)%Z else None) in
  n = len body /\
  takesAll (writes (partBody p)) pw = Some pw' /\
  uploadPipe s slug name p pw st
  = ((match (database.Create e (db st)).1 with
      | Some x => Some (Wrap "create entry" x)
      | None => None
      end, pw'),
     setDb (Now st).2 (database.Create e (db st)).2).
Proof.
  intros Hc body now e. unfold uploadPipe. rewrite Hc.
  apply copyBuffer_multi_ok in Hc as (Hn & Habs & Htakes).
  cbn in Habs. rewrite Z.add_0_l in Hn. subst n. split; [done|]. split; [done|].
  subst body now e. unfold Hasher_Sum. rewrite Habs.
  cbn [Now db]. unfold time.Add.
  destruct (database.Create _ _) as [[x|] d]; reflexivity.
Qed.

(** The metadata store after an upload that reached the copy: untouched
    when the copy failed, and otherwise the result of one [Create] call
    with the entry built from the bytes of the part. *)
Lemma upload_db s w r st p b rnd :
  reachesCopy s r st p b rnd ->
  let body := contents (partBody p) in
  let now := clock st (tick st) in
  let e := database.mkEntry (Base64.EncodeToString b) (FileName p)
             (Base64.EncodeToString (BLAKE3 body)) (len body) now
             (if (0 <? Lifetime s)%Z then Some (now + Lifetime s)%Z else None) in
  match (copyPart st p b).1.2 with
  | Some _ =>
      db (UploadHandler s w r st).2 = db st /\
      Status (UploadHandler s (mkResponse (Header w) []) r st).1
      = Some StatusInternalServerError
  | None =>
      (copyPart st p b).1.1 = len body /\
      takesAll (writes (partBody p))
        (filesystem.start (Base64.EncodeToString b) (fs st))
      = Some (copyPart st p b).2.1 /\
      db (UploadHandler s w r st).2 = (database.Create e (db st)).2 /\
      tick (UploadHandler s w r st).2 = S (tick st)
  end.
Proof.
  intros Hreach body now e.
  rewrite !(UploadHandler_reaches _ _ _ _ _ _ _ Hreach).
  unfold createBlob, copyPart, filesystem.Create, filesystem.PipeReader.
  cbn [fs setEntropy].
  destruct (Copy _ _) as [[n [err|]] [pw' h']] eqn:Hc; cbn [fst snd].
  - erewrite uploadPipe_copy_failed by exact Hc. cbn. done.
  - pose proof (uploadPipe_copied s (Base64.EncodeToString b) (FileName p) p _
                  (setEntropy st rnd) _ _ _ Hc) as (Hn & Htakes & Hup).
    cbn zeta in Hup. cbn [setEntropy db clock tick] in Hup.
    rewrite Hup. split; [done|]. split; [done|].
    fold body. fold now. fold e.
    destruct (database.Create e (db st)) as [[x|] d]; cbn [fst snd].
    + done.
    + destruct (filesystem.finish _ _ _) as [[y|] f]; done.
Qed.

(** The replies of an upload that reached the copy and whose blob was
    created. *)
Lemma upload_replies s w r st p b rnd :
  replies w = [] ->
  reachesCopy s r st p b rnd ->
  (createBlob s st p b rnd).1.1 = None ->
  let target := "/" +:+ Base64.EncodeToString b +:+ Ext (FileName p) in
  replies (UploadHandler s w r st).1
  = [ReplyRedirect target StatusSeeOther; ReplyWrite (target +:+ String "010" "")].
Proof.
  intros Hw Hreach Hcreate target.
  rewrite (UploadHandler_reaches _ _ _ _ _ _ _ Hreach), Hcreate.
  cbn [fst]. unfold io_WriteString, http_Redirect, reply. cbn. by rewrite Hw.
Qed.

(** Every reply of the handler is one error, or the redirect followed by
    the path; the latter only when every stage succeeded, and a 413 only
    for a declared length beyond the limit. *)
Lemma UploadHandler_outcome s w r st :
  (exists msg code,
      (UploadHandler s w r st).1 = http_Error w msg code /\
      (code = StatusBadRequest \/ code = StatusInternalServerError \/
       code = StatusRequestEntityTooLarge /\ (Limit s < ContentLength r)%Z)) \/
  (exists p b rnd,
      reachesCopy s r st p b rnd /\
      (createBlob s st p b rnd).1.1 = None /\
      (UploadHandler s w r st).1 =
        io_WriteString
          (http_Redirect w ("/" +:+ Base64.EncodeToString b +:+ Ext (FileName p))
             StatusSeeOther)
          (("/" +:+ Base64.EncodeToString b +:+ Ext (FileName p)) +:+ String "010" "")).
Proof.
  destruct (Z.ltb (Limit s) (ContentLength r)) eqn:Hcl.
  { left. apply Z.ltb_lt in Hcl. rewrite UploadHandler_declared by done.
    eexists _, _. split; [reflexivity|]. auto. }
  apply Z.ltb_ge in Hcl.
  destruct (MultipartReader (setBody r (MaxBytesReader (Body r) (Limit s))))
    as [mr|e] eqn:Hmr.
  2:{ left. unfold UploadHandler. apply Z.ltb_ge in Hcl. rewrite Hcl, Hmr.
      eexists _, _. split; [reflexivity|]. auto. }
  destruct (findFile mr) as [p|e] eqn:Hfind.
  2:{ left. erewrite UploadHandler_no_part by done.
      eexists _, _. split; [reflexivity|]. auto. }
  destruct (Nat.ltb 255 (String.length (FileName p))) eqn:Hname.
  { left. unfold UploadHandler. apply Z.ltb_ge in Hcl. rewrite Hcl, Hmr, Hfind, Hname.
    eexists _, _. split; [reflexivity|]. auto. }
  apply Nat.ltb_ge in Hname.
  destruct (ReadFull (entropy st) 9 []) as [[b [e|]] rnd] eqn:Hrand.
  { left. unfold UploadHandler. apply Z.ltb_ge in Hcl.
    rewrite Hcl, Hmr, Hfind. apply Nat.ltb_ge in Hname. rewrite Hname, Hrand.
    eexists _, _. split; [reflexivity|]. auto. }
  assert (reachesCopy s r st p b rnd) as Hreach.
  { split; [done|]. split; [by exists mr|]. split; [lia|done]. }
  rewrite (UploadHandler_reaches _ _ _ _ _ _ _ Hreach).
  destruct ((createBlob s st p b rnd).1.1) as [e|] eqn:Hcreate.
  - left. eexists _, _. split; [reflexivity|]. auto.
  - right. exists p, b, rnd. done.
Qed.

End UploadFacts.

(** ** The claims about uploads *)

Lemma Status_error w msg code :
  replies w = [] -> Status (http_Error w msg code) = Some code.
Proof. intros Hw. unfold Status, http_Error, reply. cbn. by rewrite Hw. Qed.

Lemma Status_redirect w url code s' :
  replies w = [] ->
  Status (io_WriteString (http_Redirect w url code) s') = Some code.
Proof.
  intros Hw. unfold Status, io_WriteString, http_Redirect, reply. cbn.
  by rewrite Hw.
Qed.

Section UploadClaims.

Context {Lb : Lib} {D F : Type} {DB : database.Database D} {FS : filesystem.FileSystem F}.

Implicit Types (s : Server) (w : ResponseWriter) (r : Request) (st : State D F).

(** C1.  In an upload that reaches the copy, when the copy succeeds the
    blob store has taken every byte of the part, in full writes, and the
    metadata store is the outcome of [Create] on an entry whose [Size] is
    the number of bytes the copy reports, which is the number of these
    bytes, and whose [Sum] is the unpadded base64url encoding of their
    BLAKE3 digest; when the copy fails the metadata store is left as it
    was: no entry is created. *)
Theorem upload_entry_size_and_sum s w r st p b rnd :
  reachesCopy s r st p b rnd ->
  let body := contents (partBody p) in
  let st' := (UploadHandler s w r st).2 in
  match (copyPart st p b).1.2 with
  | None =>
      takesAll (writes (partBody p))
        (filesystem.start (Base64.EncodeToString b) (fs st))
      = Some (copyPart st p b).2.1 /\
      concat (writes (partBody p)) = body /\
      exists e,
        db st' = (database.Create e (db st)).2 /\
        database.Slug e = Base64.EncodeToString b /\
        database.Size e = (copyPart st p b).1.1 /\
        database.Size e = len body /\
        database.Sum e = Base64.EncodeToString (BLAKE3 body)
  | Some _ => db st' = db st
  end.
Proof.
  intros Hreach body st'. subst st'.
  pose proof (upload_db s w r st p b rnd Hreach) as Hdb. cbn zeta in Hdb.
  destruct ((copyPart st p b).1.2) as [e|].
  - apply Hdb.
  - destruct Hdb as (Hn & Htakes & Hdb & _). split; [done|].
    split; [apply writes_concat|]. eexists. split; [exact Hdb|].
    cbn. by rewrite Hn.
Qed.

(** C9.  An upload whose copy succeeded reads the clock once, after the
    copy, and its entry carries that reading as its [Timestamp]; with a
    positive configured lifetime its [Lifetime] is that same instant plus
    the configured duration, and with a zero (or negative) one it is
    nil. *)
Theorem upload_expiry s w r st p b rnd :
  reachesCopy s r st p b rnd ->
  (copyPart st p b).1.2 = None ->
  exists e,
    db (UploadHandler s w r st).2 = (database.Create e (db st)).2 /\
    tick (UploadHandler s w r st).2 = S (tick st) /\
    database.Timestamp e = clock st (tick st) /\
    ((0 < Lifetime s)%Z ->
       database.Lifetime e = Some (database.Timestamp e + Lifetime s)%Z) /\
    ((Lifetime s <= 0)%Z -> database.Lifetime e = None).
Proof.
  intros Hreach Hcopy.
  pose proof (upload_db s w r st p b rnd Hreach) as Hdb. cbn zeta in Hdb.
  rewrite Hcopy in Hdb. destruct Hdb as (_ & _ & Hdb & Htick).
  eexists. split; [exact Hdb|]. split; [exact Htick|].
  cbn. split; [done|]. split; intros HL.
  - apply Z.ltb_lt in HL. by rewrite HL.
  - apply Z.ltb_ge in HL. by rewrite HL.
Qed.

(** C7.  When the upload reached the copy and [s.FileSystem.Create]
    returned no error, the handler redirects with 303 to
    ["/" + slug + ext], [ext] being [filepath.Ext] of the part's file
    name, and then writes that path, followed by a line feed, as the
    body. *)
Theorem upload_redirect s w r st p b rnd :
  replies w = [] ->
  reachesCopy s r st p b rnd ->
  (createBlob s st p b rnd).1.1 = None ->
  let target := "/" +:+ Base64.EncodeToString b +:+ Ext (FileName p) in
  replies (UploadHandler s w r st).1
  = [ReplyRedirect target StatusSeeOther; ReplyWrite (target +:+ String "010" "")]
  /\ Status (UploadHandler s w r st).1 = Some StatusSeeOther.
Proof.
  intros Hw Hreach Hcreate target. split.
  - exact (upload_replies s w r st p b rnd Hw Hreach Hcreate).
  - rewrite (UploadHandler_reaches _ _ _ _ _ _ _ Hreach), Hcreate.
    by apply Status_redirect.
Qed.

(** C8.  An upload that is answered with the redirect has drawn exactly
    nine bytes, the first nine the random source delivers; its slug is
    their unpadded base64url encoding, twelve characters of the URL-safe
    alphabet, whatever the file holds and is called, and it is this slug
    that the redirect and the entry carry. *)
Theorem upload_slug s w r st :
  replies w = [] ->
  Status (UploadHandler s w r st).1 = Some StatusSeeOther ->
  exists b name e,
    let slug := Base64.EncodeToString b in
    b = take 9 (contents (entropy st)) /\
    length b = 9%nat /\
    String.length slug = 12%nat /\
    Base64.all_urlsafe slug = true /\
    replies (UploadHandler s w r st).1
    = [ReplyRedirect ("/" +:+ slug +:+ Ext name) StatusSeeOther;
       ReplyWrite (("/" +:+ slug +:+ Ext name) +:+ String "010" "")] /\
    database.Slug e = slug /\
    db (UploadHandler s w r st).2 = (database.Create e (db st)).2.
Proof.
  intros Hw Hst.
  destruct (UploadHandler_outcome s w r st)
    as [(msg & code & Heq & Hcode)|(p & b & rnd & Hreach & Hcreate & Heq)].
  { rewrite Heq, Status_error in Hst by done.
    inversion Hst as [Hc].
    unfold StatusBadRequest, StatusInternalServerError,
      StatusRequestEntityTooLarge, StatusSeeOther in *.
    destruct Hcode as [->|[->|[-> _]]]; discriminate. }
  pose proof Hreach as (_ & _ & _ & Hrand).
  apply ReadFull_ok in Hrand as [Hb Hlen]. cbn in Hb, Hlen.
  pose proof (upload_db s w r st p b rnd Hreach) as Hdb. cbn zeta in Hdb.
  destruct ((copyPart st p b).1.2) as [e|] eqn:Hcopy.
  { destruct Hdb as [_ H500]. exfalso.
    assert (UploadHandler s (mkResponse (Header w) []) r st
            = UploadHandler s w r st) as Hsame
      by (destruct w as [hd rp]; cbn in Hw; by subst rp).
    rewrite Hsame, Hst in H500. discriminate. }
  destruct Hdb as (_ & _ & Hdb & _).
  eexists b, (FileName p), _. cbn zeta.
  split; [done|]. split; [done|]. split.
  { apply Nat2Z.inj. rewrite EncodeToString_length, Hlen. reflexivity. }
  split; [apply EncodeToString_urlsafe|]. split.
  { exact (upload_replies s w r st p b rnd Hw Hreach Hcreate). }
  split; [|exact Hdb]. reflexivity.
Qed.


End UploadClaims.

(** ** Content-type detection *)

Section DetectFacts.

Context {Lb : Lib}.

(** What [detectContentType] does to the stream and what it returns. *)
Lemma detectContentType_eq (name : string) (r : Blob) :
  let k := Nat.min 3072 (readable r) in
  let b := take k (drop (offset r) (content r)) in
  (blob_ReadFull 3072 r).1.1 = b /\
  (blob_ReadFull 3072 r).2 = blob_advance k r /\
  detectContentType name r
  = if seekable r
    then ((classify name b, None),
          mkBlob (content r) 0 (burst r) (fault r) (seekable r))
    else (("", Some ErrSeek), blob_advance k r).
Proof.
  intros k b. destruct (blob_ReadFull_spec 3072 r) as (err & Hrf).
  fold k in Hrf. fold b in Hrf. unfold detectContentType. rewrite Hrf.
  split; [done|]. split; [done|].
  unfold blob_Seek. cbn [seekable blob_advance content burst fault].
  destruct (seekable r); reflexivity.
Qed.



(** C10.  [detectContentType] fails exactly when the stream cannot seek
    back, with the "seeker can't seek" error, whatever reading the
    stream did.  When it succeeds on content sniffed as the generic
    octet-stream type whose name has an extension unknown to the table,
    it returns the sniffed type; and, the sniffer never naming a type
    by the empty string, it never returns an empty type. *)
Theorem detect_octet_stream_fallback (name : string) (r : Blob) :
  (forall b, MIME_String (Detect b) <> "") ->
  let b := (blob_ReadFull 3072 r).1.1 in
  let out := detectContentType name r in
  (out.1.2 = None <-> seekable r = true) /\
  (out.1.2 <> None -> out.1.2 = Some ErrSeek) /\
  (seekable r = true ->
   MIME_Is (Detect b) "application/octet-stream" = true ->
   TypeByExtension (Ext name) = "" ->
   out.1.1 = MIME_String (Detect b)) /\
  (seekable r = true -> out.1.1 <> "").
Proof.
  intros Hlib b out. subst b out.
  destruct (detectContentType_eq name r) as (Hb & _ & Hout).
  cbn zeta in Hb, Hout. rewrite Hb, Hout.
  destruct (seekable r); cbn [fst snd].
  - split; [done|]. split; [done|]. split.
    + intros _ Hoct Hext. unfold classify. by rewrite Hoct, Hext.
    + intros _. unfold classify.
      destruct (MIME_Is _ _); [|apply Hlib].
      destruct (String.eqb_spec (TypeByExtension (Ext name)) ""); [apply Hlib|done].
  - split; [split; discriminate|]. split; [done|]. split; discriminate.
Qed.

End DetectFacts.


(** ** Serving *)

Lemma plainText_html (rest : string) :
  plainText ("text/html" +:+ rest) = "text/plain" +:+ rest.
Proof. reflexivity. Qed.

Lemma plainText_other (ctype : string) :
  HasPrefix ctype "text/html" = false -> plainText ctype = ctype.
Proof. intros Hp. unfold plainText, htmlPrefix. by rewrite Hp. Qed.

Section ServeFacts.

Context {Lb : Lib} {D F : Type} {DB : database.Database D} {FS : filesystem.FileSystem F}.

Implicit Types (w : ResponseWriter) (st : State D F) (e : database.Entry).

Lemma setEntryHeaders_lookup (cache ctype : string) e w :
  let w' := setEntryHeaders cache ctype e w in
  Header w' !! "Cache-Control" = Some cache /\
  Header w' !! "Content-Type" = Some ctype /\
  Header w' !! "Expires"
  = match database.Lifetime e with
    | Some lifetime => Some (FormatHTTP lifetime)
    | None => Header w !! "Expires"
    end.
Proof.
  unfold setEntryHeaders, Header_Set. cbn.
  destruct (database.Lifetime e); cbn; by simplify_map_eq.
Qed.

Lemma serveBlob_served (cache : string) e w st f e' :
  (serveBlob cache e w st).1.1 = OpenedEntry f e' ->
  e' = e /\
  exists f0 ctype,
    filesystem.Open (database.Slug e) (fs st) = inl f0 /\
    detectContentType (database.Name e) f0 = ((ctype, None), f) /\
    (serveBlob cache e w st).1.2 = setEntryHeaders cache (plainText ctype) e w.
Proof.
  unfold serveBlob.
  destruct (filesystem.Open _ _) as [f0|err]; [|discriminate].
  destruct (detectContentType _ f0) as [[ctype [err|]] f1] eqn:Hd; [discriminate|].
  cbn. intros [= <- <-]. split; [done|]. by exists f0, ctype.
Qed.

Lemma serveBlob_seekable (cache : string) e w st f0 :
  filesystem.Open (database.Slug e) (fs st) = inl f0 ->
  seekable f0 = true ->
  exists f, (serveBlob cache e w st).1.1 = OpenedEntry f e /\
            content f = content f0 /\ offset f = 0%nat.
Proof.
  intros Hopen Hseek. unfold serveBlob. rewrite Hopen.
  destruct (detectContentType_eq (database.Name e) f0) as (_ & _ & Hd).
  cbn zeta in Hd. rewrite Hseek in Hd. rewrite Hd. by eexists.
Qed.

Lemma serveEntry_served w (name : string) st f e :
  (serveEntry w name st).1.1 = OpenedEntry f e ->
  database.Lookup name (db st) = inl e /\
  (forall lifetime, database.Lifetime e = Some lifetime ->
     (clock st (tick st) <= lifetime)%Z) /\
  exists f0 ctype,
    filesystem.Open (database.Slug e) (fs st) = inl f0 /\
    detectContentType (database.Name e) f0 = ((ctype, None), f) /\
    (serveEntry w name st).1.2
    = setEntryHeaders
        (match database.Lifetime e with
         | Some lifetime => revalidate lifetime (clock st (tick st))
         | None => "max-age=31536000"
         end) (plainText ctype) e w.
Proof.
  unfold serveEntry.
  destruct (database.Lookup name (db st)) as [e0|err].
  2:{ destruct (errors_Is _ _); discriminate. }
  destruct (database.Lifetime e0) as [lifetime|] eqn:Hl; cbn [Now].
  - unfold time.Before.
    destruct (lifetime <? clock st (tick st))%Z eqn:Hb; [discriminate|].
    apply Z.ltb_ge in Hb. intros Hs.
    apply serveBlob_served in Hs as (-> & f0 & ctype & Hopen & Hdet & Hw).
    cbn [fs] in Hopen. rewrite Hl.
    split; [done|]. split; [by intros ? [= <-]|]. by exists f0, ctype.
  - intros Hs.
    apply serveBlob_served in Hs as (-> & f0 & ctype & Hopen & Hdet & Hw).
    rewrite Hl. split; [done|]. split; [discriminate|]. by exists f0, ctype.
Qed.

(** A name that is no file of the public directory and has a single
    segment is served as the entry whose slug is that segment up to its
    first dot. *)
Lemma serveOpen_entry (s : Server) w (name base : string) st :
  public st name = PublicErr ErrNotExist ->
  path_Split name = ("/", base) ->
  serveOpen s w name st
  = serveEntry w (match index_dot base with
                  | Some i => string_take i base
                  | None => base
                  end) st.
Proof.
  intros Hpub Hsplit. unfold serveOpen. rewrite Hpub, Hsplit. reflexivity.
Qed.

(** C4.  The [Content-Type] of a served entry is the detected type with
    a leading "text/html" replaced by "text/plain" and the rest of it
    unchanged, and the detected type itself when it does not begin with
    "text/html". *)
Theorem html_served_as_plain_text w (name : string) st f e :
  (serveEntry w name st).1.1 = OpenedEntry f e ->
  exists f0 ctype,
    filesystem.Open (database.Slug e) (fs st) = inl f0 /\
    (detectContentType (database.Name e) f0).1 = (ctype, None) /\
    Header (serveEntry w name st).1.2 !! "Content-Type" = Some (plainText ctype) /\
    (forall rest, ctype = "text/html" +:+ rest ->
       plainText ctype = "text/plain" +:+ rest) /\
    (HasPrefix ctype "text/html" = false -> plainText ctype = ctype).
Proof.
  intros Hs.
  apply serveEntry_served in Hs as (_ & _ & f0 & ctype & Hopen & Hdet & Hw).
  exists f0, ctype. rewrite Hdet, Hw. split; [done|]. split; [done|].
  split; [apply setEntryHeaders_lookup|].
  split; [intros rest ->; apply plainText_html|apply plainText_other].
Qed.


(** C2, as the code has it.  For a stored entry with lifetime [L]: a
    lookup at an instant up to and including [L] serves the entry (given
    that its blob opens and can seek), and a lookup at any later instant
    is answered "does not exist", with the response untouched, which is
    what a slug the store has never held is answered. *)
Theorem lookup_expiry w (name : string) st e (L : time.Time) :
  database.Lookup name (db st) = inl e ->
  database.Lifetime e = Some L ->
  let now := clock st (tick st) in
  ((now <= L)%Z ->
     forall f0,
       filesystem.Open (database.Slug e) (fs st) = inl f0 ->
       seekable f0 = true ->
       exists f, (serveEntry w name st).1.1 = OpenedEntry f e /\
                 content f = content f0 /\ offset f = 0%nat) /\
  ((L < now)%Z ->
     (serveEntry w name st).1 = (OpenFailed ErrNotExist, w) /\
     forall (st0 : State D F) (name0 : string),
       database.Lookup name0 (db st0) = inr ErrNoResults ->
       (serveEntry w name0 st0).1 = (serveEntry w name st).1).
Proof.
  intros Hlook Hl now. subst now. unfold serveEntry at 1 2. rewrite Hlook, Hl.
  cbn [Now]. unfold time.Before. split.
  - intros Hle f0 Hopen Hseek.
    apply Z.ltb_ge in Hle. rewrite Hle.
    by apply serveBlob_seekable.
  - intros Hlt. apply Z.ltb_lt in Hlt. rewrite Hlt. split; [done|].
    intros st0 name0 Hnone. unfold serveEntry. rewrite Hlook, Hl, Hnone.
    cbn [Now]. unfold time.Before. by rewrite Hlt.
Qed.

End ServeFacts.

(** ** The theorems at work on the in-memory stores *)

Import memory.

Lemma sample_reachesCopy :
  reachesCopy sampleServer sampleRequest sampleState samplePart drawnBytes entropyLeft.
Proof.
  split; [cbn; lia|]. split; [eexists; split; reflexivity|].
  split; [cbn; lia|reflexivity].
Defined.

Lemma upload_entry_size_and_sum_witness :
  reachesCopy sampleServer sampleRequest sampleState samplePart drawnBytes entropyLeft /\
  takesAll (writes (partBody samplePart)) (filesystem.start "AQIDBAUGBwgJ" (fs sampleState))
  = Some (list_byte_of_string "<html>hi</html>more") /\
  exists e,
    db (UploadHandler sampleServer newResponse sampleRequest sampleState).2
    = (database.Create e (db sampleState)).2 /\
    database.Slug e = "AQIDBAUGBwgJ" /\
    database.Size e = 19%Z /\
    database.Size e = len (list_byte_of_string "<html>hi</html>more") /\
    database.Sum e
    = Base64.EncodeToString (BLAKE3 (list_byte_of_string "<html>hi</html>more")).
Proof.
  split; [exact sample_reachesCopy|].
  destruct (upload_entry_size_and_sum (Lb:=sampleLib) (DB:=memDatabase)
              (FS:=memFileSystem) sampleServer newResponse sampleRequest
              sampleState samplePart drawnBytes entropyLeft sample_reachesCopy)
    as (Htakes & _ & Hentry).
  split; [exact Htakes|exact Hentry].
Defined.

Lemma upload_expiry_witness :
  exists e,
    db (UploadHandler sampleServer newResponse sampleRequest sampleState).2
    = (database.Create e (db sampleState)).2 /\
    database.Timestamp e = 1000%Z /\
    database.Lifetime e = Some 5000001000%Z.
Proof.
  destruct (upload_expiry (Lb:=sampleLib) (DB:=memDatabase) (FS:=memFileSystem) sampleServer newResponse sampleRequest sampleState
              samplePart drawnBytes entropyLeft sample_reachesCopy ltac:(vm_compute; reflexivity))
    as (e & Hdb & _ & Hts & Hpos & _).
  exists e. split; [exact Hdb|]. split; [exact Hts|].
  rewrite (Hpos ltac:(cbn; lia)), Hts. reflexivity.
Defined.

Lemma upload_redirect_witness :
  replies (UploadHandler sampleServer newResponse sampleRequest sampleState).1
  = [ReplyRedirect "/AQIDBAUGBwgJ.html" 303;
     ReplyWrite ("/AQIDBAUGBwgJ.html" +:+ String "010" "")]
  /\ Status (UploadHandler sampleServer newResponse sampleRequest sampleState).1
     = Some 303%Z.
Proof.
  exact (upload_redirect (Lb:=sampleLib) (DB:=memDatabase) (FS:=memFileSystem) sampleServer newResponse sampleRequest sampleState
           samplePart drawnBytes entropyLeft ltac:(vm_compute; reflexivity) sample_reachesCopy ltac:(vm_compute; reflexivity)).
Defined.

Lemma upload_slug_witness :
  exists b name e,
    b = drawnBytes /\
    length b = 9%nat /\
    String.length (Base64.EncodeToString b) = 12%nat /\
    Base64.all_urlsafe (Base64.EncodeToString b) = true /\
    replies (UploadHandler sampleServer newResponse sampleRequest sampleState).1
    = [ReplyRedirect ("/" +:+ Base64.EncodeToString b +:+ Ext name) 303;
       ReplyWrite (("/" +:+ Base64.EncodeToString b +:+ Ext name) +:+ String "010" "")] /\
    database.Slug e = Base64.EncodeToString b /\
    db (UploadHandler sampleServer newResponse sampleRequest sampleState).2
    = (database.Create e (db sampleState)).2.
Proof.
  exact (upload_slug (Lb:=sampleLib) (DB:=memDatabase) (FS:=memFileSystem) sampleServer newResponse sampleRequest sampleState
           ltac:(vm_compute; reflexivity) ltac:(vm_compute; reflexivity)).
Defined.




Lemma sampleLib_names_types : forall b, MIME_String (Detect b) <> "".
Proof.
  intros b. cbn.
  destruct (startsWith "<html" b); cbn; [discriminate|].
  destruct (startsWith "%PDF-" b); cbn; discriminate.
Defined.

Lemma detect_octet_stream_fallback_witness :
  let r := mkBlob [x00; x01; x02] 0 0 None true in
  let out := detectContentType "blob.bin" r in
  out.1.2 = None /\ out.1.1 = "application/octet-stream" /\ out.1.1 <> "".
Proof.
  intros r out.
  destruct (detect_octet_stream_fallback (Lb:=sampleLib) "blob.bin" r sampleLib_names_types)
    as (Herr & _ & Hres & Hne).
  split; [by apply Herr|]. split; [exact (Hres ltac:(vm_compute; reflexivity) ltac:(vm_compute; reflexivity) ltac:(vm_compute; reflexivity))|].
  exact (Hne ltac:(vm_compute; reflexivity)).
Defined.

Lemma html_served_as_plain_text_witness :
  Header (serveEntry newResponse storedSlug (storedState None 1000%Z)).1.2
    !! "Content-Type"
  = Some "text/plain; charset=utf-8".
Proof.
  destruct (html_served_as_plain_text (Lb:=sampleLib) (DB:=memDatabase) (FS:=memFileSystem) newResponse storedSlug
              (storedState None 1000%Z) storedBlob (storedEntry None) ltac:(vm_compute; reflexivity))
    as (f0 & ctype & Hopen & Hdet & Hct & Hhtml & _).
  rewrite Hct. f_equal.
  vm_compute in Hopen. injection Hopen as <-.
  vm_compute in Hdet. injection Hdet as <-.
  exact (Hhtml "; charset=utf-8" ltac:(reflexivity)).
Defined.



Lemma lookup_expiry_witness :
  (exists f,
     (serveEntry newResponse storedSlug (storedState (Some 5000%Z) 1000%Z)).1.1
     = OpenedEntry f (storedEntry (Some 5000%Z))) /\
  (serveEntry newResponse storedSlug (storedState (Some 5000%Z) 5001%Z)).1
  = (OpenFailed ErrNotExist, newResponse) /\
  (serveEntry newResponse "never" (storedState None 5001%Z)).1
  = (serveEntry newResponse storedSlug (storedState (Some 5000%Z) 5001%Z)).1.
Proof.
  split.
  - destruct (lookup_expiry (Lb:=sampleLib) (DB:=memDatabase) (FS:=memFileSystem)
                newResponse storedSlug (storedState (Some 5000%Z) 1000%Z)
                (storedEntry (Some 5000%Z)) 5000%Z
                ltac:(reflexivity) ltac:(reflexivity)) as [Hlive _].
    destruct (Hlive ltac:(vm_compute; discriminate) storedBlob
                ltac:(reflexivity) ltac:(reflexivity)) as (f & Hf & _).
    exists f. exact Hf.
  - destruct (lookup_expiry (Lb:=sampleLib) (DB:=memDatabase) (FS:=memFileSystem)
                newResponse storedSlug (storedState (Some 5000%Z) 5001%Z)
                (storedEntry (Some 5000%Z)) 5000%Z
                ltac:(reflexivity) ltac:(reflexivity)) as [_ Hdead].
    destruct (Hdead ltac:(vm_compute; reflexivity)) as [Hgone Hsame].
    split; [exact Hgone|].
    exact (Hsame (storedState None 5001%Z) "never" ltac:(reflexivity)).
Defined.

(** Against C2 as stated: a lookup at the very instant [L] is a lookup at
    a time greater than or equal to [L], and the entry is served. *)
Lemma served_at_expiry_instant :
  let L := 5000%Z in
  let now := 5000%Z in
  let out := serveEntry newResponse storedSlug (storedState (Some L) now) in
  (L <= now)%Z /\
  out.1.1 = OpenedEntry storedBlob (storedEntry (Some L)) /\
  out.1.1 <> OpenFailed ErrNotExist /\
  Header out.1.2 !! "Cache-Control" = Some "public, must-revalidate, max-age=0".
Proof.
  intros L now out. split; [cbn; lia|].
  split; [vm_compute; reflexivity|]. split; [vm_compute; discriminate|].
  vm_compute. reflexivity.
Qed.

(** * Further properties of the handlers *)

(** ** Names, extensions and paths *)

Lemma append_cons (a : ascii) (s t : string) :
  String a s +:+ t = String a (s +:+ t).
Proof. reflexivity. Qed.

Lemma append_nil (t : string) : "" +:+ t = t.
Proof. reflexivity. Qed.

Lemma append_assoc (s t v : string) : (s +:+ t) +:+ v = s +:+ (t +:+ v).
Proof.
  induction s as [|a s IH]; [done|]. rewrite !append_cons. by rewrite IH.
Qed.

Lemma string_of_list_app (l : list ascii) (t : string) :
  string_of_list_ascii l +:+ t
  = fold_right String t l.
Proof.
  induction l as [|a l IH]; [done|]. cbn [string_of_list_ascii fold_right].
  rewrite append_cons. by rewrite IH.
Qed.

Lemma lacks_app (c : ascii) (s t : string) :
  lacks c (s +:+ t) = lacks c s && lacks c t.
Proof.
  induction s as [|a s IH]; [done|].
  rewrite append_cons. cbn [lacks]. rewrite IH. by rewrite andb_assoc.
Qed.

Lemma lacks_cons_self (c : ascii) (d f : string) :
  lacks c (d +:+ String c f) = false.
Proof.
  rewrite lacks_app. cbn [lacks]. rewrite Ascii.eqb_refl. cbn.
  apply andb_false_r.
Qed.

Lemma urlsafe_not (c d : ascii) :
  Base64.urlsafe d = false -> Base64.urlsafe c = true -> Ascii.eqb c d = false.
Proof.
  intros Hd Hc. destruct (Ascii.eqb_spec c d) as [->|]; [congruence|done].
Qed.

Lemma all_urlsafe_lacks (d : ascii) (s : string) :
  Base64.urlsafe d = false -> Base64.all_urlsafe s = true -> lacks d s = true.
Proof.
  intros Hd. induction s as [|a s IH]; cbn [Base64.all_urlsafe lacks]; [done|].
  intros [Ha Hs]%andb_prop. rewrite (urlsafe_not a d Hd Ha). cbn. auto.
Qed.

(** What [filepath.Ext] returns is empty, or a dot followed by bytes that
    are neither dots nor separators. *)
Lemma ext_scan_shape (rpath : list ascii) : forall acc,
  lacks "." acc = true -> lacks "/" acc = true ->
  ext_scan rpath acc = "" \/
  exists t, ext_scan rpath acc = String "." t /\
            lacks "." t = true /\ lacks "/" t = true.
Proof.
  induction rpath as [|c r IH]; intros acc Hdot Hsl; cbn [ext_scan]; [by left|].
  unfold isPathSeparator.
  destruct (Ascii.eqb_spec c "/") as [->|Hc1]; [by left|].
  destruct (Ascii.eqb_spec c ".") as [->|Hc2].
  - right. by exists acc.
  - apply IH; cbn [lacks].
    + destruct (Ascii.eqb_spec c "."); [done|]. by rewrite Hdot.
    + destruct (Ascii.eqb_spec c "/"); [done|]. by rewrite Hsl.
Qed.

Lemma Ext_shape (name : string) :
  Ext name = "" \/
  exists t, Ext name = String "." t /\ lacks "." t = true /\ lacks "/" t = true.
Proof. unfold Ext. by apply ext_scan_shape. Qed.

(** What the scan of [path.Split] returns: the two halves make up the
    path again and the second holds no slash; the first is empty or ends
    with a slash. *)
Lemma split_scan_spec (rpath : list ascii) : forall file d f,
  lacks "/" file = true ->
  split_scan rpath file = (d, f) ->
  fold_right String file (rev rpath) = d +:+ f /\ lacks "/" f = true /\
  (d = "" \/ exists pre, d = pre +:+ "/").
Proof.
  induction rpath as [|c r IH]; intros file d f Hfile Hs; cbn [split_scan] in Hs.
  - injection Hs as <- <-. cbn. auto.
  - destruct (Ascii.eqb_spec c "/") as [->|Hc].
    + injection Hs as <- <-. split; [|split; [done|]].
      * by rewrite string_of_list_app.
      * right. exists (string_of_list_ascii (rev r)). cbn [rev].
        rewrite string_of_list_app.
        clear. induction (rev r) as [|a l IH]; cbn; [done|]. by rewrite IH.
    + apply IH in Hs as (Heq & Hf & Hd).
      * split; [|done]. rewrite <- Heq. cbn [rev]. by rewrite fold_right_app.
      * cbn [lacks]. destruct (Ascii.eqb_spec c "/"); [done|]. by rewrite Hfile.
Qed.

Lemma fold_right_String (p : string) :
  fold_right String "" (list_ascii_of_string p) = p.
Proof. induction p as [|a p IH]; cbn; [done|]. by rewrite IH. Qed.

Lemma path_Split_spec (p d f : string) :
  path_Split p = (d, f) ->
  p = d +:+ f /\ lacks "/" f = true /\ (d = "" \/ exists pre, d = pre +:+ "/").
Proof.
  unfold path_Split. intros Hs.
  apply split_scan_spec in Hs as (Heq & Hf & Hd); [|done].
  rewrite rev_involutive, fold_right_String in Heq. done.
Qed.

Lemma append_inv_lacks (c : ascii) (d1 : string) : forall d2 f1 f2,
  d1 +:+ String c f1 = d2 +:+ String c f2 ->
  lacks c f1 = true -> lacks c f2 = true ->
  d1 = d2 /\ f1 = f2.
Proof.
  induction d1 as [|a d1 IH]; intros d2 f1 f2 Heq H1 H2.
  - destruct d2 as [|b d2]; rewrite ?append_cons, ?append_nil in Heq.
    + by injection Heq as ->.
    + injection Heq as <- Heq. exfalso.
      pose proof (lacks_cons_self c d2 f2) as Hc. rewrite <- Heq in Hc. congruence.
  - destruct d2 as [|b d2]; rewrite ?append_cons, ?append_nil in Heq.
    + injection Heq as -> Heq. exfalso.
      pose proof (lacks_cons_self c d1 f1) as Hc. rewrite Heq in Hc. congruence.
    + injection Heq as -> Heq. apply IH in Heq as [-> ->]; done.
Qed.

(** A single leading slash followed by a name without a slash splits
    into "/" and that name. *)
Lemma path_Split_single (base : string) :
  lacks "/" base = true -> path_Split (String "/" base) = ("/", base).
Proof.
  intros Hbase. destruct (path_Split (String "/" base)) as [d f] eqn:Hs.
  apply path_Split_spec in Hs as (Heq & Hf & [->|(pre & ->)]).
  - rewrite append_nil in Heq. subst f. cbn in Hf. done.
  - rewrite append_assoc in Heq.
    change (String "/" base = pre +:+ String "/" f) in Heq.
    apply (append_inv_lacks "/" "" pre base f) in Heq as [<- <-]; done.
Qed.

(** The first dot of [stem ++ ext] is where [ext] starts, when [stem]
    holds no dot. *)
Lemma trim_at_first_dot (stem t : string) :
  lacks "." stem = true ->
  index_dot (stem +:+ String "." t) = Some (String.length stem) /\
  string_take (String.length stem) (stem +:+ String "." t) = stem.
Proof.
  intros Hs. induction stem as [|a stem IH]; [done|].
  rewrite append_cons. cbn [index_dot String.length string_take lacks] in *.
  apply andb_prop in Hs as [Ha Hs].
  apply negb_true_iff in Ha. rewrite Ha.
  destruct (IH Hs) as [-> ->]. done.
Qed.

Lemma index_dot_none (stem : string) :
  lacks "." stem = true -> index_dot stem = None.
Proof.
  induction stem as [|a stem IH]; cbn [index_dot lacks]; [done|].
  intros [Ha Hs]%andb_prop. apply negb_true_iff in Ha. rewrite Ha.
  by rewrite IH.
Qed.

(** ** Slugs and the bytes they encode *)

Lemma alphabet_distinct (n m : nat) :
  (n < 64)%nat -> (m < 64)%nat ->
  default "="%char (String.get n Base64.encodeURL)
  = default "="%char (String.get m Base64.encodeURL) ->
  n = m.
Proof.
  intros Hn Hm Heq.
  assert (forallb (fun i => forallb (fun j =>
            implb (Ascii.eqb (default "="%char (String.get i Base64.encodeURL))
                             (default "="%char (String.get j Base64.encodeURL)))
                  (Nat.eqb i j)) (seq 0 64)) (seq 0 64) = true) as Hall
    by (vm_compute; reflexivity).
  rewrite forallb_forall in Hall.
  specialize (Hall n ltac:(apply in_seq; lia)).
  rewrite forallb_forall in Hall.
  specialize (Hall m ltac:(apply in_seq; lia)).
  rewrite Heq, Ascii.eqb_refl in Hall. by apply Nat.eqb_eq.
Qed.

Lemma digit_sextet (val val' shift : N) :
  Base64.digit val shift = Base64.digit val' shift ->
  ((val / 2 ^ shift) mod 64 = (val' / 2 ^ shift) mod 64)%N.
Proof.
  unfold Base64.digit. intros Heq.
  change 63%N with (N.ones 6) in Heq. rewrite !N.land_ones, !N.shiftr_div_pow2 in Heq.
  change (2 ^ 6)%N with 64%N in Heq.
  apply alphabet_distinct in Heq.
  - lia.
  - pose proof (N.mod_lt (val / 2 ^ shift) 64 ltac:(discriminate)). lia.
  - pose proof (N.mod_lt (val' / 2 ^ shift) 64 ltac:(discriminate)). lia.
Qed.

Lemma lor_shifted (a b n : N) :
  (b < 2 ^ n)%N -> N.lor (a * 2 ^ n) b = (a * 2 ^ n + b)%N.
Proof.
  intros Hb.
  assert (N.land (a * 2 ^ n) b = 0%N) as Hland.
  { apply N.bits_inj. intros m. rewrite N.land_spec, N.bits_0.
    destruct (N.lt_ge_cases m n) as [Hlt|Hge].
    - by rewrite N.mul_pow2_bits_low.
    - rewrite andb_false_iff. right.
      destruct (N.eq_dec b 0%N) as [->|Hnz]; [apply N.bits_0|].
      apply N.bits_above_log2. apply N.log2_lt_pow2 in Hb; lia. }
  rewrite <- N.lxor_lor by done. by rewrite N.add_nocarry_lxor.
Qed.

Lemma u_bound (b : byte) : (Base64.u b < 256)%N.
Proof. unfold Base64.u. pose proof (Byte.to_N_bounded b). lia. Qed.

Lemma u_inj (b b' : byte) : Base64.u b = Base64.u b' -> b = b'.
Proof.
  unfold Base64.u. intros Heq.
  apply (f_equal Byte.of_N) in Heq. rewrite !Byte.of_to_N in Heq. congruence.
Qed.

Lemma group_value (b0 b1 b2 : byte) :
  N.lor (N.lor (N.shiftl (Base64.u b0) 16) (N.shiftl (Base64.u b1) 8)) (Base64.u b2)
  = (Base64.u b0 * 65536 + Base64.u b1 * 256 + Base64.u b2)%N.
Proof.
  pose proof (u_bound b0). pose proof (u_bound b1). pose proof (u_bound b2).
  rewrite !N.shiftl_mul_pow2.
  rewrite lor_shifted by (change (2 ^ 16)%N with 65536%N; change (2 ^ 8)%N with 256%N; lia).
  replace (Base64.u b0 * 2 ^ 16 + Base64.u b1 * 2 ^ 8)%N
    with ((Base64.u b0 * 256 + Base64.u b1) * 2 ^ 8)%N
    by (change (2 ^ 16)%N with 65536%N; change (2 ^ 8)%N with 256%N; lia).
  rewrite lor_shifted by (change (2 ^ 8)%N with 256%N; lia).
  change (2 ^ 8)%N with 256%N. lia.
Qed.

Lemma pair_value (b0 b1 : byte) :
  N.lor (N.shiftl (Base64.u b0) 16) (N.shiftl (Base64.u b1) 8)
  = (Base64.u b0 * 65536 + Base64.u b1 * 256)%N.
Proof.
  pose proof (u_bound b0). pose proof (u_bound b1).
  rewrite !N.shiftl_mul_pow2.
  rewrite lor_shifted by (change (2 ^ 16)%N with 65536%N; change (2 ^ 8)%N with 256%N; lia).
  change (2 ^ 16)%N with 65536%N; change (2 ^ 8)%N with 256%N. lia.
Qed.

Lemma div_mod_inj (a a' : N) :
  (a / 64 = a' / 64)%N -> (a mod 64 = a' mod 64)%N -> a = a'.
Proof.
  intros Hq Hr.
  rewrite (N.div_mod a 64), (N.div_mod a' 64) by discriminate. congruence.
Qed.

Lemma sextets_inj (v v' : N) :
  (v < 2 ^ 24)%N -> (v' < 2 ^ 24)%N ->
  ((v / 2 ^ 18) mod 64 = (v' / 2 ^ 18) mod 64)%N ->
  ((v / 2 ^ 12) mod 64 = (v' / 2 ^ 12) mod 64)%N ->
  ((v / 2 ^ 6) mod 64 = (v' / 2 ^ 6) mod 64)%N ->
  ((v / 2 ^ 0) mod 64 = (v' / 2 ^ 0) mod 64)%N ->
  v = v'.
Proof.
  change (2 ^ 24)%N with (262144 * 64)%N. change (2 ^ 18)%N with (64 * 64 * 64)%N.
  change (2 ^ 12)%N with (64 * 64)%N. change (2 ^ 6)%N with 64%N. change (2 ^ 0)%N with 1%N.
  intros Hv Hv' H18 H12 H6 H0.
  rewrite !N.div_1_r in H0.
  rewrite !N.mod_small in H18 by (by apply N.Div0.div_lt_upper_bound).
  rewrite <- !N.Div0.div_div in H18.
  apply div_mod_inj; [|done]. apply div_mod_inj; [|done].
  rewrite <- !N.Div0.div_div in H12.
  apply div_mod_inj; done.
Qed.

Lemma sextet6_zero (x : N) : ((x * 4096 / 2 ^ 6) mod 64 = 0)%N.
Proof.
  change (2 ^ 6)%N with 64%N. replace (x * 4096)%N with (x * 64 * 64)%N by lia.
  rewrite N.div_mul by discriminate. apply N.Div0.mod_mul.
Qed.

Lemma sextet0_zero (x : N) : ((x * 64 / 2 ^ 0) mod 64 = 0)%N.
Proof. change (2 ^ 0)%N with 1%N. rewrite N.div_1_r. apply N.Div0.mod_mul. Qed.

Lemma EncodeToString_inj (src : list byte) : forall src',
  Base64.EncodeToString src = Base64.EncodeToString src' -> src = src'.
Proof.
  induction src as [|a|a b|a b c l IH] using list_ind3;
    intros [|a' [|b' [|c' l']]] Heq; cbn [Base64.EncodeToString] in Heq;
    try discriminate; try reflexivity.
  - injection Heq as H18 H12. apply digit_sextet in H18, H12.
    rewrite !N.shiftl_mul_pow2 in H18, H12. change (2 ^ 16)%N with 65536%N in *.
    pose proof (u_bound a). pose proof (u_bound a').
    assert (Base64.u a * 65536 = Base64.u a' * 65536)%N as Hv.
    { apply sextets_inj; [change (2 ^ 24)%N with 16777216%N; lia..|done|done| |].
      - replace (Base64.u a * 65536)%N with (Base64.u a * 16 * 4096)%N by lia.
        replace (Base64.u a' * 65536)%N with (Base64.u a' * 16 * 4096)%N by lia.
        by rewrite !sextet6_zero.
      - replace (Base64.u a * 65536)%N with (Base64.u a * 1024 * 64)%N by lia.
        replace (Base64.u a' * 65536)%N with (Base64.u a' * 1024 * 64)%N by lia.
        by rewrite !sextet0_zero. }
    f_equal. apply u_inj. lia.
  - injection Heq as H18 H12 H6. apply digit_sextet in H18, H12, H6.
    rewrite !pair_value in H18, H12, H6.
    pose proof (u_bound a). pose proof (u_bound a').
    pose proof (u_bound b). pose proof (u_bound b').
    assert (Base64.u a * 65536 + Base64.u b * 256
            = Base64.u a' * 65536 + Base64.u b' * 256)%N as Hv.
    { apply sextets_inj; [change (2 ^ 24)%N with 16777216%N; lia..|done|done|done|].
      replace (Base64.u a * 65536 + Base64.u b * 256)%N
        with ((Base64.u a * 1024 + Base64.u b * 4) * 64)%N by lia.
      replace (Base64.u a' * 65536 + Base64.u b' * 256)%N
        with ((Base64.u a' * 1024 + Base64.u b' * 4) * 64)%N by lia.
      by rewrite !sextet0_zero. }
    assert (Base64.u a = Base64.u a' /\ Base64.u b = Base64.u b') as [Ha Hb] by lia.
    apply u_inj in Ha, Hb. by subst.
  - injection Heq as H18 H12 H6 H0 Hrest. apply digit_sextet in H18, H12, H6, H0.
    rewrite !group_value in H18, H12, H6, H0.
    pose proof (u_bound a). pose proof (u_bound a').
    pose proof (u_bound b). pose proof (u_bound b').
    pose proof (u_bound c). pose proof (u_bound c').
    assert (Base64.u a * 65536 + Base64.u b * 256 + Base64.u c
            = Base64.u a' * 65536 + Base64.u b' * 256 + Base64.u c')%N as Hv.
    { apply sextets_inj; [change (2 ^ 24)%N with 16777216%N; lia..|done|done|done|done]. }
    assert (Base64.u a = Base64.u a' /\ Base64.u b = Base64.u b' /\
            Base64.u c = Base64.u c') as (Ha & Hb & Hc) by lia.
    apply u_inj in Ha, Hb, Hc. apply IH in Hrest. by subst.
Qed.

(** X1.  The slug determines the random bytes it was made of: blocks of
    bytes that differ, of whatever lengths, never share a slug, so two
    uploads collide on a slug only when the random source repeats
    itself. *)
Theorem slugs_are_injective (b b' : list byte) :
  b <> b' -> Base64.EncodeToString b <> Base64.EncodeToString b'.
Proof. intros Hne Heq. by apply Hne, EncodeToString_inj. Qed.

(** ** More on reading *)

Lemma ReadFull_rest (r : Reader) : forall need got b r',
  ReadFull r need got = ((b, None), r') ->
  contents r' = drop need (contents r).
Proof.
  induction r as [chunk next IH|e]; intros need got b r' Hrf.
  - destruct need as [|k].
    + cbn in Hrf. by inversion Hrf.
    + cbn [ReadFull contents] in Hrf |- *.
      destruct (Nat.leb (length chunk) (S k)) eqn:Hle.
      * apply Nat.leb_le in Hle. apply IH in Hrf as ->.
        rewrite drop_app_ge by lia. done.
      * apply Nat.leb_gt in Hle. inversion Hrf; subst. cbn [contents].
        rewrite drop_app_le by lia. done.
  - destruct need as [|k]; cbn in Hrf; inversion Hrf; subst. done.
Qed.

(** [io.ReadFull] fails exactly when the reader holds fewer bytes than
    asked for. *)
Lemma ReadFull_fails_iff (r : Reader) : forall need got,
  (ReadFull r need got).1.2 <> None <-> (length (contents r) < need)%nat.
Proof.
  induction r as [chunk next IH|e]; intros need got.
  - destruct need as [|k]; cbn [ReadFull contents].
    + cbn. split; [done|lia].
    + rewrite length_app.
      destruct (Nat.leb (length chunk) (S k)) eqn:Hle.
      * apply Nat.leb_le in Hle. rewrite IH. lia.
      * apply Nat.leb_gt in Hle. cbn. split; [done|lia].
  - destruct need as [|k]; cbn; split; done || lia.
Qed.

(** ** More on uploads *)

Section UploadMore.

Context {Lb : Lib} {D F : Type} {DB : database.Database D} {FS : filesystem.FileSystem F}.

Implicit Types (s : Server) (w : ResponseWriter) (r : Request) (st : State D F).

Lemma findFile_prepend (ps : list Part) (mr : Parts) :
  noneIsFile ps -> findFile (prepend ps mr) = findFile mr.
Proof.
  induction 1 as [|p ps Hp _ IH]; [done|]. cbn. by rewrite Hp.
Qed.

(** What the producer and the blob store leave of the state, apart
    from the two stores. *)
Lemma createBlob_frame s st p b rnd :
  let st' := (createBlob s st p b rnd).2 in
  entropy st' = rnd /\ public st' = public st /\ clock st' = clock st /\
  fs st' = fs st /\
  (tick st' = tick st \/ tick st' = S (tick st)).
Proof.
  unfold createBlob, filesystem.Create, filesystem.PipeReader, uploadPipe.
  destruct (Copy _ _) as [[n [err|]] [pw h]]; cbn.
  - auto 10.
  - destruct (database.Create _ _) as [[x|] d]; cbn; auto 10.
Qed.

(** How [s.FileSystem.Create] ends in an upload that reached the copy,
    by the outcome of the copy, of the metadata commit and of the
    completion of the blob. *)
Lemma createBlob_cases s st p b rnd :
  let slug := Base64.EncodeToString b in
  let body := contents (partBody p) in
  let now := clock st (tick st) in
  let e := database.mkEntry slug (FileName p)
             (Base64.EncodeToString (BLAKE3 body)) (len body) now
             (if (0 <? Lifetime s)%Z then Some (now + Lifetime s)%Z else None) in
  let out := createBlob s st p b rnd in
  match (copyPart st p b).1.2 with
  | Some err =>
      out.1.1 = Some (Wrap "copy" err) /\ db out.2 = db st
  | None =>
      db out.2 = (database.Create e (db st)).2 /\
      match (database.Create e (db st)).1 with
      | Some err => out.1.1 = Some (Wrap "create entry" err)
      | None =>
          out.1 = filesystem.finish slug (copyPart st p b).2.1 (fs st)
      end
  end.
Proof.
  intros slug body now e out. subst out e slug.
  unfold createBlob, copyPart, filesystem.Create, filesystem.PipeReader.
  cbn [fs setEntropy].
  destruct (Copy _ _) as [[n [err|]] [pw' h']] eqn:Hc; cbn [fst snd].
  - erewrite uploadPipe_copy_failed by exact Hc. done.
  - pose proof (uploadPipe_copied s (Base64.EncodeToString b) (FileName p) p _
                  (setEntropy st rnd) _ _ _ Hc) as (Hn & Htakes & Hup).
    cbn zeta in Hup. cbn [setEntropy db clock tick] in Hup.
    rewrite Hup. fold body. fold now.
    destruct (database.Create _ (db st)) as [[x|] d]; cbn [fst snd].
    + done.
    + by destruct (filesystem.finish _ _ _) as [y f].
Qed.

(** X2.  An upload that is answered with 400 or with 413 has changed
    nothing: neither store, nor the random source, nor the clock. *)
Theorem upload_client_error_changes_nothing s w r st :
  replies w = [] ->
  Status (UploadHandler s w r st).1 = Some StatusBadRequest \/
  Status (UploadHandler s w r st).1 = Some StatusRequestEntityTooLarge ->
  (UploadHandler s w r st).2 = st.
Proof.
  intros Hw Hst.
  destruct (Z.ltb (Limit s) (ContentLength r)) eqn:Hcl.
  { apply Z.ltb_lt in Hcl. by rewrite UploadHandler_declared. }
  apply Z.ltb_ge in Hcl.
  destruct (MultipartReader (setBody r (MaxBytesReader (Body r) (Limit s))))
    as [mr|e] eqn:Hmr.
  2:{ unfold UploadHandler. apply Z.ltb_ge in Hcl. by rewrite Hcl, Hmr. }
  destruct (findFile mr) as [p|e] eqn:Hfind.
  2:{ by erewrite UploadHandler_no_part. }
  destruct (Nat.ltb 255 (String.length (FileName p))) eqn:Hname.
  { unfold UploadHandler. apply Z.ltb_ge in Hcl. by rewrite Hcl, Hmr, Hfind, Hname. }
  exfalso.
  destruct (ReadFull (entropy st) 9 []) as [[b [e|]] rnd] eqn:Hrand.
  { unfold UploadHandler in Hst. apply Z.ltb_ge in Hcl.
    rewrite Hcl, Hmr, Hfind, Hname, Hrand in Hst. cbn [fst] in Hst.
    rewrite Status_error in Hst by done.
    destruct Hst as [Hst|Hst]; discriminate. }
  assert (reachesCopy s r st p b rnd) as Hreach.
  { split; [done|]. split; [by exists mr|].
    apply Nat.ltb_ge in Hname. split; [lia|done]. }
  rewrite (UploadHandler_reaches _ _ _ _ _ _ _ Hreach) in Hst. cbn [fst] in Hst.
  destruct ((createBlob s st p b rnd).1.1).
  - rewrite Status_error in Hst by done. destruct Hst as [Hst|Hst]; discriminate.
  - rewrite Status_redirect in Hst by done. destruct Hst as [Hst|Hst]; discriminate.
Qed.

(** X3.  Parts that are not named "file" are passed over: the first part
    named "file" is the one uploaded, and when the parts end without one
    the reply is 400 with the error that ended them, and nothing has
    changed. *)
Theorem upload_first_file_part s w r st (ps : list Part) :
  noneIsFile ps ->
  (forall p rest, FormName p = "file" ->
     findFile (prepend ps (NextPart p rest)) = inl p) /\
  (forall e,
     (ContentLength r <= Limit s)%Z ->
     MultipartReader (setBody r (MaxBytesReader (Body r) (Limit s)))
     = inl (prepend ps (NoPart e)) ->
     UploadHandler s w r st = (http_Error w (Error_ e) StatusBadRequest, st)).
Proof.
  intros Hps. split.
  - intros p rest Hp. rewrite findFile_prepend by done. cbn. by rewrite Hp.
  - intros e Hcl Hmr. apply UploadHandler_no_part with (prepend ps (NoPart e)); [done..|].
    by rewrite findFile_prepend.
Qed.

(** X4.  When the random source delivers fewer than nine bytes, an upload
    that passed the checks is answered with 500 and neither store has
    changed. *)
Theorem upload_without_randomness s w r st mr p :
  replies w = [] ->
  (ContentLength r <= Limit s)%Z ->
  MultipartReader (setBody r (MaxBytesReader (Body r) (Limit s))) = inl mr ->
  findFile mr = inl p ->
  (String.length (FileName p) <= 255)%nat ->
  (length (contents (entropy st)) < 9)%nat ->
  Status (UploadHandler s w r st).1 = Some StatusInternalServerError /\
  db (UploadHandler s w r st).2 = db st /\
  fs (UploadHandler s w r st).2 = fs st.
Proof.
  intros Hw Hcl Hmr Hfind Hname Hshort.
  apply (ReadFull_fails_iff (entropy st) 9 []) in Hshort.
  unfold UploadHandler. apply Z.ltb_ge in Hcl. rewrite Hcl, Hmr, Hfind.
  replace (Nat.ltb 255 (String.length (FileName p))) with false
    by (symmetry; apply Nat.ltb_ge; lia).
  destruct (ReadFull (entropy st) 9 []) as [[b [e|]] rnd]; [|done].
  cbn. unfold Status, http_Error, reply. cbn. by rewrite Hw.
Qed.

(** X5.  An upload that reached the copy has taken exactly nine bytes
    from the random source, whatever becomes of it afterwards. *)
Theorem upload_draws_nine_bytes s w r st p b rnd :
  reachesCopy s r st p b rnd ->
  entropy (UploadHandler s w r st).2 = rnd /\
  contents rnd = drop 9 (contents (entropy st)) /\
  b = take 9 (contents (entropy st)).
Proof.
  intros Hreach. rewrite (UploadHandler_reaches _ _ _ _ _ _ _ Hreach).
  destruct (createBlob_frame s st p b rnd) as (Hent & _).
  cbn [snd setFs entropy]. split; [exact Hent|].
  destruct Hreach as (_ & _ & _ & Hrand).
  split; [by apply ReadFull_rest in Hrand|].
  by apply ReadFull_ok in Hrand as [-> _].
Qed.

(** X6.  The redirect is sent only when the copy, the metadata commit
    and the completion of the blob all returned nil; the stores are then
    what these two calls left. *)
Theorem upload_success_means_committed s w r st :
  replies w = [] ->
  Status (UploadHandler s w r st).1 = Some StatusSeeOther ->
  exists p b rnd e,
    reachesCopy s r st p b rnd /\
    (copyPart st p b).1.2 = None /\
    database.Slug e = Base64.EncodeToString b /\
    database.Create e (db st) = (None, db (UploadHandler s w r st).2) /\
    filesystem.finish (Base64.EncodeToString b) (copyPart st p b).2.1 (fs st)
    = (None, fs (UploadHandler s w r st).2).
Proof.
  intros Hw Hst.
  destruct (UploadHandler_outcome s w r st)
    as [(msg & code & Heq & Hcode)|(p & b & rnd & Hreach & Hcreate & Heq)].
  { rewrite Heq, Status_error in Hst by done.
    inversion Hst as [Hc].
    unfold StatusBadRequest, StatusInternalServerError,
      StatusRequestEntityTooLarge, StatusSeeOther in *.
    destruct Hcode as [->|[->|[-> _]]]; discriminate. }
  pose proof (createBlob_cases s st p b rnd) as Hcases. cbn zeta in Hcases.
  set (e := database.mkEntry (Base64.EncodeToString b) (FileName p)
              (Base64.EncodeToString (BLAKE3 (contents (partBody p))))
              (len (contents (partBody p))) (clock st (tick st))
              (if (0 <? Lifetime s)%Z
               then Some (clock st (tick st) + Lifetime s)%Z else None)) in *.
  exists p, b, rnd, e.
  rewrite (UploadHandler_reaches _ _ _ _ _ _ _ Hreach). cbn [snd setFs db fs].
  destruct ((copyPart st p b).1.2) as [err|].
  { destruct Hcases as [Hc _]. congruence. }
  destruct Hcases as [Hdb Hcases]. split; [done|]. split; [done|].
  split; [reflexivity|].
  destruct (database.Create e (db st)) as [[x|] d] eqn:Hcr; cbn [fst snd] in *.
  { congruence. }
  split; [by rewrite Hdb|].
  rewrite <- Hcases. destruct (createBlob s st p b rnd) as [[o f] st'].
  cbn [fst snd] in *. by subst o.
Qed.

(** X7.  The metadata commit comes before the blob is completed: when the
    copy and the commit succeeded and the blob store then fails to
    complete the blob, the reply is 500 and the entry stays committed. *)
Theorem upload_entry_outlives_blob_failure s w r st p b rnd err :
  replies w = [] ->
  reachesCopy s r st p b rnd ->
  (copyPart st p b).1.2 = None ->
  let slug := Base64.EncodeToString b in
  let body := contents (partBody p) in
  let now := clock st (tick st) in
  let e := database.mkEntry slug (FileName p)
             (Base64.EncodeToString (BLAKE3 body)) (len body) now
             (if (0 <? Lifetime s)%Z then Some (now + Lifetime s)%Z else None) in
  (database.Create e (db st)).1 = None ->
  (filesystem.finish slug (copyPart st p b).2.1 (fs st)).1 = Some err ->
  Status (UploadHandler s w r st).1 = Some StatusInternalServerError /\
  db (UploadHandler s w r st).2 = (database.Create e (db st)).2.
Proof.
  intros Hw Hreach Hcopy slug body now e Hcommit Hfinish.
  pose proof (createBlob_cases s st p b rnd) as Hcases. cbn zeta in Hcases.
  rewrite Hcopy in Hcases. fold slug body now e in Hcases.
  rewrite Hcommit in Hcases. destruct Hcases as [Hdb Hout].
  rewrite (UploadHandler_reaches _ _ _ _ _ _ _ Hreach). cbn [fst snd setFs db].
  rewrite Hout, Hfinish. split; [by apply Status_error|done].
Qed.

End UploadMore.

(** ** More on serving *)

Lemma plainText_not_html (ctype : string) :
  HasPrefix (plainText ctype) "text/html" = false.
Proof.
  unfold plainText, htmlPrefix.
  destruct (HasPrefix ctype "text/html") eqn:Hp; [reflexivity|exact Hp].
Qed.

Lemma append_empty_r (s : string) : s +:+ "" = s.
Proof. induction s as [|a s IH]; [done|]. rewrite append_cons. by rewrite IH. Qed.

Section ServeMore.

Context {Lb : Lib} {D F : Type} {DB : database.Database D} {FS : filesystem.FileSystem F}.

Implicit Types (s : Server) (w : ResponseWriter) (st : State D F) (e : database.Entry).

Lemma setEntryHeaders_more (cache ctype : string) e w :
  let w' := setEntryHeaders cache ctype e w in
  Header w' !! "Etag" = Some (Quote (database.Sum e)) /\
  Header w' !! "X-Content-Type-Options" = Some "nosniff" /\
  Header w' !! "Content-Disposition" = Some (disposition (database.Name e)) /\
  replies w' = replies w.
Proof.
  unfold setEntryHeaders, Header_Set. cbn.
  destruct (database.Lifetime e); cbn; by simplify_map_eq.
Qed.

Lemma serveOpen_redirect_target s w (b : list byte) (name : string) st :
  public st ("/" +:+ Base64.EncodeToString b +:+ Ext name) = PublicErr ErrNotExist ->
  serveOpen s w ("/" +:+ Base64.EncodeToString b +:+ Ext name) st
  = serveEntry w (Base64.EncodeToString b) st.
Proof.
  intros Hpub. set (slug := Base64.EncodeToString b) in *.
  pose proof (EncodeToString_urlsafe b) as Hsafe. fold slug in Hsafe.
  assert (lacks "/" slug = true) as Hs1 by (by apply all_urlsafe_lacks).
  assert (lacks "." slug = true) as Hs2 by (by apply all_urlsafe_lacks).
  assert (lacks "/" (slug +:+ Ext name) = true) as Hbase.
  { rewrite lacks_app, Hs1.
    destruct (Ext_shape name) as [->|(t & -> & _ & Ht)]; [done|]. cbn. by rewrite Ht. }
  rewrite (serveOpen_entry s w _ (slug +:+ Ext name) st Hpub
             (path_Split_single _ Hbase)).
  f_equal.
  destruct (Ext_shape name) as [->|(t & -> & _ & _)].
  - rewrite append_empty_r. by rewrite index_dot_none.
  - by destruct (trim_at_first_dot slug t Hs2) as [-> ->].
Qed.

(** X8.  The path an upload redirects to leads back to its slug: with no
    file of that name in the public directory, ["/" + slug + ext] is
    served as the entry stored under [slug], for the slug of any drawn
    bytes and the extension of any file name. *)
Theorem redirect_target_resolves s w (b : list byte) (name : string) st :
  let slug := Base64.EncodeToString b in
  public st ("/" +:+ slug +:+ Ext name) = PublicErr ErrNotExist ->
  serveOpen s w ("/" +:+ slug +:+ Ext name) st = serveEntry w slug st.
Proof. intros slug. apply serveOpen_redirect_target. Qed.

(** X9.  A name that is no file of the public directory and is not a
    single segment after one leading slash is answered "does not exist"
    and nothing is looked up or changed. *)
Theorem nested_path_does_not_exist s w (name : string) st :
  public st name = PublicErr ErrNotExist ->
  (forall base, lacks "/" base = true -> name <> String "/" base) ->
  serveOpen s w name st = (OpenFailed ErrNotExist, w, st).
Proof.
  intros Hpub Hshape. unfold serveOpen. rewrite Hpub. cbn [isNotExist negb].
  destruct (path_Split name) as [d f] eqn:Hsplit.
  destruct (String.eqb_spec d "/") as [->|Hd]; [|done].
  apply path_Split_spec in Hsplit as (Heq & Hf & _).
  exfalso. by apply (Hshape f Hf).
Qed.

(** X10.  Serving changes nothing but the count of clock readings, which
    grows by one at most: both stores, the public directory and the
    random source are as before. *)
Theorem serving_is_read_only s w (name : string) st :
  let st' := (serveOpen s w name st).2 in
  db st' = db st /\ fs st' = fs st /\ public st' = public st /\
  entropy st' = entropy st /\ clock st' = clock st /\
  (tick st' = tick st \/ tick st' = S (tick st)).
Proof.
  assert (forall cache e w0 (st0 : State D F), (serveBlob cache e w0 st0).2 = st0)
    as Hblob.
  { intros cache e w0 st0. unfold serveBlob.
    destruct (filesystem.Open _ _) as [f|err]; [|done].
    destruct (detectContentType _ f) as [[ctype [err|]] f']; done. }
  cbn zeta. unfold serveOpen.
  destruct (public st name) as [[d|err]|err]; cbn [snd].
  - destruct (negb (IsDir d)); cbn; auto 10.
  - auto 10.
  - destruct (negb (isNotExist err)); [cbn; auto 10|].
    destruct (path_Split name) as [dir base].
    destruct (negb (String.eqb dir "/")); [cbn; auto 10|].
    unfold serveEntry.
    destruct (database.Lookup _ (db st)) as [e0|err'].
    + destruct (database.Lifetime e0) as [l|]; cbn [Now].
      * destruct (time.Before _ _); [cbn; auto 10|]. rewrite Hblob. cbn. auto 10.
      * rewrite Hblob. auto 10.
    + destruct (errors_Is _ _); cbn; auto 10.
Qed.

(** X11.  Headers are set and nothing is written only when a file is
    returned: whenever the file-system function fails (or panics) the
    response is exactly as it was. *)
Theorem failure_leaves_response s w (name : string) st :
  (forall d, (serveOpen s w name st).1.1 <> OpenedPublic d) ->
  (forall f e, (serveOpen s w name st).1.1 <> OpenedEntry f e) ->
  (serveOpen s w name st).1.2 = w.
Proof.
  assert (forall cache e (st0 : State D F),
            (forall f e', (serveBlob cache e w st0).1.1 <> OpenedEntry f e') ->
            (serveBlob cache e w st0).1.2 = w) as Hblob.
  { intros cache e st0. unfold serveBlob.
    destruct (filesystem.Open _ _) as [f|err]; [|done].
    destruct (detectContentType _ f) as [[ctype [err|]] f']; [done|].
    cbn. intros Hne. by destruct (Hne f' e). }
  unfold serveOpen.
  destruct (public st name) as [[d|err]|err]; cbn [fst snd].
  - intros Hpub _. destruct (negb (IsDir d)); cbn in Hpub; by destruct (Hpub d).
  - done.
  - destruct (negb (isNotExist err)); [done|].
    destruct (path_Split name) as [dir base].
    destruct (negb (String.eqb dir "/")); [done|].
    intros _. unfold serveEntry.
    destruct (database.Lookup _ (db st)) as [e0|err'].
    + destruct (database.Lifetime e0) as [l|]; cbn [Now].
      * destruct (time.Before _ _); [done|]. apply Hblob.
      * apply Hblob.
    + by destruct (errors_Is _ _).
Qed.

(** X12.  Entries never shadow the public directory: unless that
    directory reports "does not exist" for the name, the answer does not
    depend on the stores, the random source or the clock. *)
Theorem public_directory_first s w (name : string) st (st0 : State D F) :
  public st0 name = public st name ->
  (forall err, public st name = PublicErr err -> isNotExist err = false) ->
  (serveOpen s w name st).1 = (serveOpen s w name st0).1.
Proof.
  intros Hsame Hnot. unfold serveOpen. rewrite Hsame.
  destruct (public st name) as [[d|err]|err]; cbn [fst snd].
  - by destruct (negb (IsDir d)).
  - done.
  - by rewrite (Hnot err eq_refl).
Qed.

(** X19.  A file of the public directory is handed over as it is, with
    the state untouched and nothing written.  A regular file gets a
    one-year [Cache-Control] and the weak [Etag] made of its modification
    time and size, and no other header changes; a directory gets no
    header at all. *)
Theorem public_file_served s w (name : string) st (d : FileInfo) :
  public st name = PublicFile (inl d) ->
  let out := serveOpen s w name st in
  out.1.1 = OpenedPublic d /\ out.2 = st /\ replies out.1.2 = replies w /\
  if IsDir d then out.1.2 = w
  else
    Header out.1.2 !! "Cache-Control" = Some "max-age=31536000" /\
    Header out.1.2 !! "Etag"
    = Some (SprintfWeakEtag (ModTimeUnix d) (FileSize d)) /\
    forall k, k <> "Cache-Control" -> k <> "Etag" ->
      Header out.1.2 !! k = Header w !! k.
Proof.
  intros Hpub. cbn zeta. unfold serveOpen. rewrite Hpub.
  destruct (IsDir d); cbn; [done|].
  repeat split; try by simplify_map_eq.
  intros k Hc He. by rewrite !lookup_insert_ne.
Qed.

(** X13.  The [Content-Type] of a served entry never begins with
    "text/html". *)
Theorem served_type_is_never_html w (name : string) st f e :
  (serveEntry w name st).1.1 = OpenedEntry f e ->
  exists ctype,
    Header (serveEntry w name st).1.2 !! "Content-Type" = Some ctype /\
    HasPrefix ctype "text/html" = false.
Proof.
  intros Hs.
  apply serveEntry_served in Hs as (_ & _ & f0 & ctype & _ & _ & Hw).
  exists (plainText ctype). rewrite Hw.
  split; [apply setEntryHeaders_lookup|apply plainText_not_html].
Qed.

(** X14.  A served entry is the one the store holds for the name; its
    [Etag] is the quoted stored digest, it carries
    [X-Content-Type-Options: nosniff] and a [Content-Disposition] made of
    the stored name, nothing has been written to the body yet, and the
    file handed over reads the blob from its first byte. *)
Theorem served_entry_headers w (name : string) st f e :
  (serveEntry w name st).1.1 = OpenedEntry f e ->
  let w' := (serveEntry w name st).1.2 in
  database.Lookup name (db st) = inl e /\
  Header w' !! "Etag" = Some (Quote (database.Sum e)) /\
  Header w' !! "X-Content-Type-Options" = Some "nosniff" /\
  Header w' !! "Content-Disposition"
  = Some ("filename=" +:+ Quote (PathEscape (database.Name e))
          +:+ "; filename*=UTF-8''" +:+ PathEscape (database.Name e)) /\
  replies w' = replies w /\
  exists f0,
    filesystem.Open (database.Slug e) (fs st) = inl f0 /\
    content f = content f0 /\ offset f = 0%nat.
Proof.
  intros Hs w'. subst w'.
  apply serveEntry_served in Hs as (Hlook & _ & f0 & ctype & Hopen & Hdet & Hw).
  rewrite Hw. split; [done|].
  destruct (setEntryHeaders_more
              (match database.Lifetime e with
               | Some lifetime => revalidate lifetime (clock st (tick st))
               | None => "max-age=31536000"
               end) (plainText ctype) e w) as (He & Hn & Hd & Hr).
  cbn zeta in He, Hn, Hd, Hr.
  split; [done|]. split; [done|]. split; [done|]. split; [done|].
  exists f0. split; [done|].
  destruct (detectContentType_eq (database.Name e) f0) as (_ & _ & Heq).
  cbn zeta in Heq. rewrite Hdet in Heq.
  destruct (seekable f0); [|discriminate].
  injection Heq as _ ->. done.
Qed.

End ServeMore.

(** ** Methods and reserved paths *)

Section RoutingFacts.

Context {Lb : Lib} {D F : Type} {DB : database.Database D} {FS : filesystem.FileSystem F}.

Implicit Types (s : Server) (w : ResponseWriter) (r : Request) (st : State D F).

Lemma Health_state w st : (Health w st).2 = st.
Proof. unfold Health. by destruct (database.Ping (db st)). Qed.

(** X15.  Only a [POST] to "/" can change anything: for every other
    method and path, what [ServeHTTP] does itself leaves the state as it
    was, and what it hands to the file server is the file-system function
    and the untouched response. *)
Theorem other_requests_change_nothing s w (method path : string) r st :
  method <> "POST" \/ path <> "/" ->
  match ServeHTTP s w method path r st with
  | Answered w' st' => st' = st
  | ToMetrics w' st' => st' = st /\ w' = w
  | ToFileServer open w' st' => st' = st /\ w' = w /\ open = serveOpen s w
  end.
Proof.
  intros Hnot. unfold ServeHTTP.
  destruct (String.eqb method "GET" || String.eqb method "HEAD").
  - destruct (String.eqb path "/healthz").
    + pose proof (Health_state w st). by destruct (Health w st).
    + by destruct (String.eqb path "/varz").
  - destruct (String.eqb_spec method "POST") as [->|_]; [|done].
    destruct (String.eqb_spec path "/") as [->|_]; [|done].
    by destruct Hnot.
Qed.

(** X16.  A method other than [GET], [HEAD] and [OPTIONS], a [POST] to
    "/" apart, is answered with 405 and an [Allow] header, and
    [OPTIONS] with an [Access-Control-Allow-Methods] header and nothing
    else; either header lists [POST] exactly when the path is "/". *)
Theorem method_not_allowed s w (method path : string) r st :
  replies w = [] ->
  method <> "GET" -> method <> "HEAD" ->
  (method = "POST" -> path <> "/") ->
  let allow := if String.eqb path "/" then "GET, HEAD, OPTIONS, POST"
               else "GET, HEAD, OPTIONS" in
  exists w',
    ServeHTTP s w method path r st = Answered w' st /\
    if String.eqb method "OPTIONS" then
      replies w' = [] /\
      Header w' !! "Access-Control-Allow-Methods" = Some allow /\
      Header w' !! "Allow" = Header w !! "Allow"
    else
      replies w' = [ReplyError "Method Not Allowed" StatusMethodNotAllowed] /\
      Header w' !! "Allow" = Some allow.
Proof.
  intros Hw Hget Hhead Hpost allow.
  exists (notAllowed w method path). split.
  - unfold ServeHTTP.
    destruct (String.eqb_spec method "GET") as [->|_]; [done|].
    destruct (String.eqb_spec method "HEAD") as [->|_]; [done|]. cbn [orb].
    destruct (String.eqb_spec method "POST") as [Hm|_]; [|done].
    destruct (String.eqb_spec path "/") as [Hp|_]; [|done].
    by destruct (Hpost Hm).
  - unfold notAllowed. fold allow.
    destruct (String.eqb method "OPTIONS"); unfold http_Error, reply, Header_Set; cbn.
    + split; [done|]. by simplify_map_eq.
    + rewrite Hw. split; [done|]. by simplify_map_eq.
Qed.

(** X17.  A [GET] or [HEAD] of "/healthz" is answered by the ping of the
    metadata store, before the public directory, the stores' entries or
    the clock are looked at: 500 with the text of the error when the
    ping fails, and otherwise nothing is written at all. *)
Theorem healthz_pings s w (method : string) r st :
  method = "GET" \/ method = "HEAD" ->
  ServeHTTP s w method "/healthz" r st
  = match database.Ping (db st) with
    | Some err =>
        Answered (http_Error w (Error_ err) StatusInternalServerError) st
    | None => Answered w st
    end.
Proof.
  intros [-> | ->]; unfold ServeHTTP, Health; cbn;
    by destruct (database.Ping (db st)).
Qed.

End RoutingFacts.

(** ** Upload and download on the in-memory stores *)

Section RoundTrip.

Context {Lb : Lib}.

Implicit Types (s : Server) (w : ResponseWriter) (r : Request)
  (st : State (gmap string database.Entry) (gmap string (list byte))).



End RoundTrip.

(** ** The further properties at work *)

Import scenarios.

Lemma slugs_are_injective_witness :
  [x01; x02] <> [x01; x03] /\
  Base64.EncodeToString [x01; x02] <> Base64.EncodeToString [x01; x03].
Proof.
  split; [discriminate|].
  apply (slugs_are_injective [x01; x02] [x01; x03]). discriminate.
Defined.

Lemma upload_client_error_changes_nothing_witness :
  Status (UploadHandler sampleServer newResponse declaredTooLarge sampleState).1
  = Some 413%Z /\
  (UploadHandler sampleServer newResponse declaredTooLarge sampleState).2 = sampleState.
Proof.
  split; [vm_compute; reflexivity|].
  apply (upload_client_error_changes_nothing (Lb:=sampleLib) (DB:=memDatabase)
           (FS:=memFileSystem) sampleServer newResponse declaredTooLarge sampleState).
  - reflexivity.
  - right. vm_compute. reflexivity.
Defined.

Lemma notePart_noneIsFile : noneIsFile [notePart].
Proof. constructor; [reflexivity|constructor]. Defined.

Lemma upload_first_file_part_witness :
  findFile (prepend [notePart] (NextPart samplePart (NoPart EOF))) = inl samplePart /\
  UploadHandler sampleServer newResponse noFileRequest sampleState
  = (http_Error newResponse "EOF" 400, sampleState).
Proof.
  destruct (upload_first_file_part (Lb:=sampleLib) (DB:=memDatabase)
              (FS:=memFileSystem) sampleServer newResponse noFileRequest sampleState
              [notePart] notePart_noneIsFile) as [Hfirst Hnone].
  split.
  - apply Hfirst. reflexivity.
  - apply (Hnone EOF); [vm_compute; discriminate|reflexivity].
Defined.

Lemma upload_without_randomness_witness :
  Status (UploadHandler sampleServer newResponse sampleRequest dryState).1 = Some 500%Z /\
  db (UploadHandler sampleServer newResponse sampleRequest dryState).2 = db dryState /\
  fs (UploadHandler sampleServer newResponse sampleRequest dryState).2 = fs dryState.
Proof.
  apply (upload_without_randomness (Lb:=sampleLib) (DB:=memDatabase)
           (FS:=memFileSystem) sampleServer newResponse sampleRequest dryState
           (NextPart samplePart (NoPart EOF)) samplePart).
  - reflexivity.
  - vm_compute. discriminate.
  - reflexivity.
  - reflexivity.
  - vm_compute. lia.
  - vm_compute. lia.
Defined.

Lemma upload_draws_nine_bytes_witness :
  entropy (UploadHandler sampleServer newResponse sampleRequest sampleState).2
  = entropyLeft /\
  contents entropyLeft = drop 9 (contents sampleEntropy) /\
  drawnBytes = take 9 (contents sampleEntropy).
Proof.
  exact (upload_draws_nine_bytes (Lb:=sampleLib) (DB:=memDatabase)
           (FS:=memFileSystem) sampleServer newResponse sampleRequest sampleState
           samplePart drawnBytes entropyLeft sample_reachesCopy).
Defined.

Lemma upload_success_means_committed_witness :
  exists p b rnd e,
    reachesCopy sampleServer sampleRequest sampleState p b rnd /\
    (copyPart sampleState p b).1.2 = None /\
    database.Slug e = Base64.EncodeToString b /\
    database.Create e (db sampleState)
    = (None, db (UploadHandler sampleServer newResponse sampleRequest sampleState).2) /\
    filesystem.finish (Base64.EncodeToString b) (copyPart sampleState p b).2.1
      (fs sampleState)
    = (None, fs (UploadHandler sampleServer newResponse sampleRequest sampleState).2).
Proof.
  apply (upload_success_means_committed (Lb:=sampleLib) (DB:=memDatabase)
           (FS:=memFileSystem) sampleServer newResponse sampleRequest sampleState).
  - reflexivity.
  - vm_compute. reflexivity.
Defined.

Lemma taken_reachesCopy :
  reachesCopy sampleServer sampleRequest takenState samplePart drawnBytes entropyLeft.
Proof.
  split; [cbn; lia|]. split; [eexists; split; reflexivity|].
  split; [cbn; lia|reflexivity].
Defined.

Lemma upload_entry_outlives_blob_failure_witness :
  Status (UploadHandler sampleServer newResponse sampleRequest takenState).1
  = Some 500%Z /\
  db (UploadHandler sampleServer newResponse sampleRequest takenState).2 !! storedSlug
  = Some (storedEntry (Some 5000001000%Z)).
Proof.
  destruct (upload_entry_outlives_blob_failure (Lb:=sampleLib) (DB:=memDatabase)
              (FS:=memFileSystem) sampleServer newResponse sampleRequest takenState
              samplePart drawnBytes entropyLeft (ErrOther "file exists")
              ltac:(reflexivity) taken_reachesCopy ltac:(vm_compute; reflexivity)
              ltac:(vm_compute; reflexivity) ltac:(vm_compute; reflexivity))
    as [Hstatus Hdb].
  split; [exact Hstatus|]. rewrite Hdb. vm_compute. reflexivity.
Defined.

Lemma redirect_target_resolves_witness :
  serveOpen sampleServer newResponse "/AQIDBAUGBwgJ.html" (storedState None 1000%Z)
  = serveEntry newResponse "AQIDBAUGBwgJ" (storedState None 1000%Z).
Proof.
  exact (redirect_target_resolves (Lb:=sampleLib) (DB:=memDatabase)
           (FS:=memFileSystem) sampleServer newResponse drawnBytes
           "report.final.html" (storedState None 1000%Z) ltac:(reflexivity)).
Defined.

Lemma nested_path_does_not_exist_witness :
  serveOpen sampleServer newResponse "/AQIDBAUGBwgJ/x" (storedState None 1000%Z)
  = (OpenFailed ErrNotExist, newResponse, storedState None 1000%Z).
Proof.
  apply (nested_path_does_not_exist (Lb:=sampleLib) (DB:=memDatabase)
           (FS:=memFileSystem)).
  - reflexivity.
  - intros base Hbase Heq. injection Heq as <-. vm_compute in Hbase. discriminate.
Defined.

Lemma failure_leaves_response_witness :
  let w := Header_Set "Server" "kipp" newResponse in
  (serveOpen sampleServer w "/missing" (storedState None 1000%Z)).1.1
  = OpenFailed ErrNotExist /\
  (serveOpen sampleServer w "/missing" (storedState None 1000%Z)).1.2 = w.
Proof.
  intros w. split; [vm_compute; reflexivity|].
  apply (failure_leaves_response (Lb:=sampleLib) (DB:=memDatabase)
           (FS:=memFileSystem)).
  - intros d. vm_compute. discriminate.
  - intros f e. vm_compute. discriminate.
Defined.

Lemma public_directory_first_witness :
  (serveOpen sampleServer newResponse "/index.html" publicState).1
  = (serveOpen sampleServer newResponse "/index.html" publicStored).1 /\
  (serveOpen sampleServer newResponse "/secret" publicState).1
  = (serveOpen sampleServer newResponse "/secret" publicStored).1.
Proof.
  split;
    apply (public_directory_first (Lb:=sampleLib) (DB:=memDatabase)
             (FS:=memFileSystem)); try reflexivity;
    intros err Herr; vm_compute in Herr; [discriminate|].
  injection Herr as <-. reflexivity.
Defined.

Lemma public_file_served_witness :
  let out := serveOpen sampleServer newResponse "/index.html" publicStored in
  out.1.1 = OpenedPublic indexInfo /\ out.2 = publicStored /\
  Header out.1.2 !! "Cache-Control" = Some "max-age=31536000" /\
  Header out.1.2 !! "Etag" = Some "W/1700000000-2048" /\
  Header out.1.2 !! "Content-Type" = None.
Proof.
  intros out.
  destruct (public_file_served (Lb:=sampleLib) (DB:=memDatabase)
              (FS:=memFileSystem) sampleServer newResponse "/index.html"
              publicStored indexInfo ltac:(reflexivity))
    as (Hfile & Hst & _ & Hcache & Hetag & Hrest).
  split; [exact Hfile|]. split; [exact Hst|]. split; [exact Hcache|].
  split; [exact Hetag|].
  exact (Hrest "Content-Type" ltac:(discriminate) ltac:(discriminate)).
Defined.

Lemma served_type_is_never_html_witness :
  exists ctype,
    Header (serveEntry newResponse storedSlug (storedState None 1000%Z)).1.2
      !! "Content-Type" = Some ctype /\
    HasPrefix ctype "text/html" = false.
Proof.
  exact (served_type_is_never_html (Lb:=sampleLib) (DB:=memDatabase)
           (FS:=memFileSystem) newResponse storedSlug (storedState None 1000%Z)
           storedBlob (storedEntry None) ltac:(vm_compute; reflexivity)).
Defined.

Lemma served_entry_headers_witness :
  let w' := (serveEntry newResponse storedSlug (storedState None 1000%Z)).1.2 in
  Header w' !! "Etag"
  = Some (String "034" ("ZXJvbT5sbXRoLzxpaD5sbXRoPA" +:+ String "034" "")) /\
  Header w' !! "X-Content-Type-Options" = Some "nosniff" /\
  replies w' = [].
Proof.
  intros w'.
  destruct (served_entry_headers (Lb:=sampleLib) (DB:=memDatabase)
              (FS:=memFileSystem) newResponse storedSlug (storedState None 1000%Z)
              storedBlob (storedEntry None) ltac:(vm_compute; reflexivity))
    as (_ & Hetag & Hsniff & _ & Hreplies & _).
  split; [exact Hetag|]. split; [exact Hsniff|exact Hreplies].
Defined.

Lemma other_requests_change_nothing_witness :
  ServeHTTP sampleServer newResponse "GET" "/AQIDBAUGBwgJ.html" sampleRequest sampleState
  = ToFileServer (serveOpen sampleServer newResponse) newResponse sampleState /\
  match ServeHTTP sampleServer newResponse "DELETE" "/" sampleRequest sampleState with
  | Answered _ st' => st' = sampleState
  | _ => False
  end.
Proof.
  split.
  - pose proof (other_requests_change_nothing (Lb:=sampleLib) (DB:=memDatabase)
                  (FS:=memFileSystem) sampleServer newResponse "GET"
                  "/AQIDBAUGBwgJ.html" sampleRequest sampleState
                  ltac:(left; discriminate)) as Hget.
    destruct (ServeHTTP _ _ "GET" _ _ _) as [w' st'|w' st'|open w' st'] eqn:Hs;
      [discriminate Hs..|].
    destruct Hget as (-> & -> & ->). reflexivity.
  - pose proof (other_requests_change_nothing (Lb:=sampleLib) (DB:=memDatabase)
                  (FS:=memFileSystem) sampleServer newResponse "DELETE"
                  "/" sampleRequest sampleState
                  ltac:(left; discriminate)) as Hdel.
    destruct (ServeHTTP _ _ "DELETE" _ _ _) as [w' st'|w' st'|open w' st'] eqn:Hs;
      [exact Hdel|discriminate Hs..].
Defined.

Lemma method_not_allowed_witness :
  (exists w',
     ServeHTTP sampleServer newResponse "DELETE" "/" sampleRequest sampleState
     = Answered w' sampleState /\
     replies w' = [ReplyError "Method Not Allowed" 405] /\
     Header w' !! "Allow" = Some "GET, HEAD, OPTIONS, POST") /\
  (exists w',
     ServeHTTP sampleServer newResponse "OPTIONS" "/x" sampleRequest sampleState
     = Answered w' sampleState /\
     replies w' = [] /\
     Header w' !! "Access-Control-Allow-Methods" = Some "GET, HEAD, OPTIONS").
Proof.
  split.
  - destruct (method_not_allowed (Lb:=sampleLib) (DB:=memDatabase)
                (FS:=memFileSystem) sampleServer newResponse "DELETE" "/"
                sampleRequest sampleState ltac:(reflexivity) ltac:(discriminate)
                ltac:(discriminate) ltac:(discriminate))
      as (w' & Hserve & Hreplies & Hallow).
    exists w'. split; [exact Hserve|]. split; [exact Hreplies|exact Hallow].
  - destruct (method_not_allowed (Lb:=sampleLib) (DB:=memDatabase)
                (FS:=memFileSystem) sampleServer newResponse "OPTIONS" "/x"
                sampleRequest sampleState ltac:(reflexivity) ltac:(discriminate)
                ltac:(discriminate) ltac:(discriminate))
      as (w' & Hserve & Hreplies & Hallow & _).
    exists w'. split; [exact Hserve|]. split; [exact Hreplies|exact Hallow].
Defined.

Lemma healthz_pings_witness :
  ServeHTTP sampleServer newResponse "HEAD" "/healthz" sampleRequest sampleState
  = Answered newResponse sampleState.
Proof.
  exact (healthz_pings (Lb:=sampleLib) (DB:=memDatabase) (FS:=memFileSystem)
           sampleServer newResponse "HEAD" sampleRequest sampleState
           ltac:(right; reflexivity)).
Defined.

